(** * ubxlib: the I2C port layer for the ESP-IDF platform

    A shallow embedding of [port/platform/esp-idf/src/u_port_i2c.c] and the
    properties of it that the specification states.

    Layout:
    - fixed-width integer conversions, written out on [Z];
    - the timeout unit conversion ([timeoutMsToEsp32], [timeoutEsp32ToMs]);
    - the ESP-IDF driver as a recorded list of calls answered by an oracle;
    - the module's globals as an explicit state, threaded by a small monad;
    - the static and public functions of the file, in source order;
    - the theorems. *)

From Stdlib Require Import ZArith Lia Bool List.
From stdpp Require Import base numbers list.

Local Open Scope Z_scope.

(** ** Fixed-width integers

    The target is a 32-bit machine: [int32_t], [size_t] and [unsigned long]
    are all 32 bits wide, [uint16_t] and [uint8_t] are 16 and 8. *)

Definition to_uint32 (z : Z) : Z := z mod 2 ^ 32.
Definition to_int32 (z : Z) : Z := (z + 2 ^ 31) mod 2 ^ 32 - 2 ^ 31.
Definition to_uint8 (z : Z) : Z := z mod 2 ^ 8.

Definition INT32_MAX : Z := 2 ^ 31 - 1.

(** [1UL << n]: defined by C only for a shift count in [0, 32). *)
Definition shift_defined (n : Z) : bool := (0 <=? n) && (n <? 32).
Definition ulong_shl1 (n : Z) : Z := to_uint32 (Z.shiftl 1 n).

(** ** Compile-time macros *)

Definition U_PORT_I2C_MAX_NUM : Z := 2.

(** Modelled from the spec: [driver/i2c.h] belongs to ESP-IDF and is not
    among the sources; the flag that selects the RC network as clock source
    has ESP-IDF's value. *)
Definition I2C_SCLK_SRC_FLAG_LIGHT_SLEEP : Z := 2.

(** The crystal is the default clock source. *)
Definition U_PORT_I2C_ESP32X3_CLOCK_SOURCE : Z := 0.

Definition U_PORT_I2C_CLOCK_PERIOD_NS : Z :=
  if U_PORT_I2C_ESP32X3_CLOCK_SOURCE =? I2C_SCLK_SRC_FLAG_LIGHT_SLEEP
  then 57 else 25.

Definition U_PORT_I2C_ESP32X3_TIMEOUT_REGISTER_MAX : Z := 22.

(** ** Timeout unit conversion (the branch compiled when
    [CONFIG_IDF_TARGET_ESP32] is not defined)

    The clock period is a macro of the build; it is a parameter here so that
    both of its values are covered. *)

Section TimeoutConversion.

Variable period_ns : Z.

(** [(1UL << x) * U_PORT_I2C_CLOCK_PERIOD_NS / 1000000], computed in
    [unsigned long] and stored in an [int32_t]. *)
Definition periods_to_ms (x : Z) : Z :=
  to_int32 (to_uint32 (ulong_shl1 x * period_ns) / 1000000).

(** The [for] loop of [timeoutMsToEsp32]: [x] is the [size_t] loop counter
    and [timeoutEsp32] the running result; [n] bounds the iterations left. *)
Fixpoint timeoutMsToEsp32_loop (n : nat) (x timeoutMs timeoutEsp32 : Z) : Z :=
  match n with
  | O => timeoutEsp32
  | S n' =>
      if (x <? U_PORT_I2C_ESP32X3_TIMEOUT_REGISTER_MAX) && (timeoutEsp32 <? 0)
      then
        let y := periods_to_ms x in
        let timeoutEsp32' :=
          if y >=? timeoutMs then to_int32 x else timeoutEsp32 in
        timeoutMsToEsp32_loop n' (to_uint32 (x + 1)) timeoutMs timeoutEsp32'
      else timeoutEsp32
  end.

(** The loop leaves after at most [U_PORT_I2C_ESP32X3_TIMEOUT_REGISTER_MAX]
    rounds, see [timeoutMsToEsp32_loop_more]. *)
Definition timeoutMsToEsp32 (timeoutMs : Z) : Z :=
  timeoutMsToEsp32_loop (Z.to_nat U_PORT_I2C_ESP32X3_TIMEOUT_REGISTER_MAX)
    0 timeoutMs (-1).

(** [None] stands for the undefined shift of a count outside [0, 32). *)
Definition timeoutEsp32ToMs (timeoutEsp32 : Z) : option Z :=
  if shift_defined timeoutEsp32
  then Some (periods_to_ms timeoutEsp32)
  else None.

(** *** The conversion as the specification words it

    The real timeout of register value [x], in whole milliseconds. *)
Definition register_ms (x : Z) : Z := (2 ^ x * period_ns) / 1000000.

(** "the smallest [x] in [[0, hi]] such that [2^x * period_ns] (converted
    to ms) is [>=] the requested timeout, returning -1 if no such [x]
    exists within range". *)
Definition smallest_register (hi ms : Z) : Z :=
  match find (fun x => ms <=? register_ms x) (seqZ 0 (hi + 1)) with
  | Some x => x
  | None => -1
  end.

Definition msToRegister_spec (ms : Z) : Z := smallest_register 22 ms.

End TimeoutConversion.

(** ** Constants of headers that are not part of the sources *)

(** Modelled from the spec: [u_error_common.h] is not among the sources. The
    specification names the kinds NotInitialized, NotSupported,
    InvalidParameter and Platform; the source's own comments say that zero
    is success and every error code is negative. The numbers are those of
    the library's enumeration. *)
Definition U_ERROR_COMMON_SUCCESS : Z := 0.
Definition U_ERROR_COMMON_NOT_INITIALISED : Z := -2.
Definition U_ERROR_COMMON_NOT_SUPPORTED : Z := -4.
Definition U_ERROR_COMMON_INVALID_PARAMETER : Z := -5.
Definition U_ERROR_COMMON_PLATFORM : Z := -8.

(** Modelled from the spec: [u_port_i2c.h] is not among the sources. The
    specification speaks of "a default clock/timeout" programmed by open;
    the numbers are the library's defaults (100 kHz, 10 ms). *)
Definition U_PORT_I2C_CLOCK_FREQUENCY_HERTZ : Z := 100000.
Definition U_PORT_I2C_TIMEOUT_MILLISECONDS : Z := 10.

(** Modelled from the spec: [driver/i2c.h] and [esp_err.h] belong to ESP-IDF
    and are not among the sources; the values are those of ESP-IDF. *)
Definition ESP_OK : Z := 0.
Definition I2C_MODE_MASTER : Z := 1.
Definition I2C_MASTER_WRITE : Z := 0.
Definition I2C_MASTER_READ : Z := 1.

Inductive i2c_ack_type_t : Type :=
| I2C_MASTER_ACK
| I2C_MASTER_NACK
| I2C_MASTER_LAST_NACK.

Record i2c_config_t : Type := mk_i2c_config {
  cfg_mode : Z;
  sda_io_num : Z;
  scl_io_num : Z;
  sda_pullup_en : bool;
  scl_pullup_en : bool;
  master_clk_speed : Z;
  clk_flags : Z
}.

(** ** Address macros

    Each is passed to [i2c_master_write_byte], whose parameter is a
    [uint8_t]; the conversion is applied at the call. *)

Definition U_PORT_7BIT_ADDRESS_READ (address : Z) : Z :=
  Z.lor (Z.shiftl address 1) I2C_MASTER_READ.
Definition U_PORT_7BIT_ADDRESS_WRITE (address : Z) : Z :=
  Z.lor (Z.shiftl address 1) I2C_MASTER_WRITE.
Definition U_PORT_10BIT_HEADER_READ (address : Z) : Z :=
  Z.lor (Z.lor (Z.shiftr (Z.land address 768) 7) 240) I2C_MASTER_READ.
Definition U_PORT_10BIT_HEADER_WRITE (address : Z) : Z :=
  Z.lor (Z.lor (Z.shiftr (Z.land address 768) 7) 240) I2C_MASTER_WRITE.
Definition U_PORT_10BIT_ADDRESS (address : Z) : Z := Z.land address 255.

(** ** The ESP-IDF driver

    The driver is outside the file. Every call made to it is recorded, in
    order, with its arguments; what it answers is left to an oracle that
    sees the calls made so far, so that any sequence of successes and
    failures can be played. Command links and buffers are named by the
    integer value of their pointers; the buffer sizes of
    [i2c_driver_install], which the source always passes as zero, are left
    out. *)

Inductive DrvCall : Type :=
| i2c_cmd_link_create
| i2c_cmd_link_delete (cmd : Z)
| i2c_master_start (cmd : Z)
| i2c_master_write_byte (cmd data : Z) (ack_en : bool)
| i2c_master_write (cmd pData size : Z) (ack_en : bool)
| i2c_master_read (cmd pData size : Z) (ack : i2c_ack_type_t)
| i2c_master_read_byte (cmd pData : Z) (ack : i2c_ack_type_t)
| i2c_master_stop (cmd : Z)
| i2c_master_cmd_begin (port cmd ticks : Z)
| i2c_param_config (port : Z) (cfg : i2c_config_t)
| i2c_set_timeout (port timeout : Z)
| i2c_get_timeout (port : Z)
| i2c_driver_install (port mode : Z)
| i2c_driver_delete (port : Z).

Record Driver : Type := mk_driver {
  (** the [esp_err_t] a call returns, given the calls made before it *)
  drv_result : list DrvCall -> DrvCall -> Z;
  (** the handle [i2c_cmd_link_create] returns *)
  drv_handle : list DrvCall -> Z;
  (** what [i2c_get_timeout] stores through its pointer argument *)
  drv_timeout : list DrvCall -> Z -> Z
}.

(** ** The globals of the file *)

Record uPortI2cData_t : Type := mk_data {
  pinSda : Z;
  pinSdc : Z;
  clockHertz : Z;
  adopted : bool
}.

Record State : Type := mk_state {
  gMutex : bool;                     (** [gMutex != NULL] *)
  gI2cData : list uPortI2cData_t;    (** [U_PORT_I2C_MAX_NUM] entries *)
  gResourceAllocCount : Z;
  calls : list DrvCall               (** driver calls made so far *)
}.

(** Static storage starts zeroed. *)
Definition zero_data : uPortI2cData_t := mk_data 0 0 0 false.
Definition boot_state : State :=
  mk_state false (replicate (Z.to_nat U_PORT_I2C_MAX_NUM) zero_data) 0 [].

(** [gI2cData[index]]; every access in the source sits behind a range check. *)
Definition data_at (s : State) (index : Z) : uPortI2cData_t :=
  default zero_data (gI2cData s !! Z.to_nat index).

Definition set_data (index : Z) (d : uPortI2cData_t) (s : State) : State :=
  mk_state (gMutex s) (<[Z.to_nat index := d]> (gI2cData s))
    (gResourceAllocCount s) (calls s).

Definition set_clockHertz (index hz : Z) (s : State) : State :=
  let d := data_at s index in
  set_data index (mk_data (pinSda d) (pinSdc d) hz (adopted d)) s.

Definition set_pinSda (index pin : Z) (s : State) : State :=
  let d := data_at s index in
  set_data index (mk_data pin (pinSdc d) (clockHertz d) (adopted d)) s.

Definition set_count (n : Z) (s : State) : State :=
  mk_state (gMutex s) (gI2cData s) n (calls s).

Definition set_mutex (b : bool) (s : State) : State :=
  mk_state b (gI2cData s) (gResourceAllocCount s) (calls s).

(** [(handle >= 0) && (handle < sizeof(gI2cData) / sizeof(gI2cData[0]))]: the
    right operand is a [size_t], so [handle] is converted to unsigned. *)
Definition in_range (handle : Z) : bool :=
  (handle >=? 0) && (to_uint32 handle <? U_PORT_I2C_MAX_NUM).

(** ** A state monad over the globals, reading the driver oracle

    The model is sequential: each public function runs from lock to unlock
    without interleaving, so [U_PORT_MUTEX_LOCK] and [U_PORT_MUTEX_UNLOCK]
    leave no trace in it. *)

Definition M (A : Type) : Type := Driver -> State -> A * State.

Definition ret {A} (a : A) : M A := fun _ s => (a, s).
Definition bind {A B} (m : M A) (k : A -> M B) : M B :=
  fun d s => let (a, s') := m d s in k a d s'.

Declare Scope m_scope.
Delimit Scope m_scope with m.
Notation "x <- m ;; k" := (bind m (fun x => k))
  (at level 100, m at next level, k at level 200, right associativity,
   only parsing) : m_scope.
Notation "m ;;; k" := (bind m (fun _ => k))
  (at level 100, k at level 200, right associativity, only parsing) : m_scope.
Local Open Scope m_scope.

Definition get : M State := fun _ s => (s, s).
Definition modify (f : State -> State) : M unit := fun _ s => (tt, f s).

Definition record_call (c : DrvCall) (s : State) : State :=
  mk_state (gMutex s) (gI2cData s) (gResourceAllocCount s) (calls s ++ [c]).

(** Make a driver call: ask the oracle, then record the call. *)
Definition call (c : DrvCall) : M Z :=
  fun d s => (drv_result d (calls s) c, record_call c s).

(** [i2c_cmd_link_create()]: the handle it returns. *)
Definition call_cmd_link_create : M Z :=
  fun d s => (drv_handle d (calls s), record_call i2c_cmd_link_create s).

(** [i2c_get_timeout(port, &timeoutEsp32)]: the result and the value stored. *)
Definition call_get_timeout (port : Z) : M (Z * Z) :=
  fun d s =>
    ((drv_result d (calls s) (i2c_get_timeout port),
      drv_timeout d (calls s) port),
     record_call (i2c_get_timeout port) s).

(** [f(...) == ESP_OK] and [f(...) != ESP_OK]. *)
Definition esp_ok (c : DrvCall) : M bool := x <- call c ;; ret (x =? ESP_OK).
Definition esp_fail (c : DrvCall) : M bool := x <- call c ;; ret (negb (x =? ESP_OK)).

(** C's short-circuit [&&] and [||] over operands with effects. *)
Definition andM (a b : M bool) : M bool := x <- a ;; if x then b else ret false.
Definition orM (a b : M bool) : M bool := x <- a ;; if x then ret true else b.

Definition U_ATOMIC_INCREMENT : M unit :=
  modify (fun s => set_count (to_int32 (gResourceAllocCount s + 1)) s).
Definition U_ATOMIC_DECREMENT : M unit :=
  modify (fun s => set_count (to_int32 (gResourceAllocCount s - 1)) s).

(** ** Static functions *)

(** Buffers are pointers in C: [None] is [NULL]. *)
Definition is_null (p : option Z) : bool :=
  match p with None => true | Some _ => false end.

Definition closeI2c (index : Z) : M unit :=
  s <- get ;;
  if clockHertz (data_at s index) >? 0 then
    (if negb (adopted (data_at s index))
     then call (i2c_driver_delete index) ;;; ret tt
     else ret tt) ;;;
    modify (set_clockHertz index (-1)) ;;;
    U_ATOMIC_DECREMENT
  else ret tt.

(** [if (cond) { errorCode = U_ERROR_COMMON_PLATFORM; }] *)
Definition platform_if (cond : M bool) (errorCode : Z) : M Z :=
  failed <- cond ;;
  ret (if failed then U_ERROR_COMMON_PLATFORM else errorCode).

Definition send (handle address : Z) (pData : option Z) (size : Z)
    (noStop : bool) : M Z :=
  cmd <- call_cmd_link_create ;;
  started <- esp_ok (i2c_master_start cmd) ;;
  if started then
    let errorCode := U_ERROR_COMMON_SUCCESS in
    (* First set up the address *)
    errorCode <-
      (if address >? 127 then
         platform_if
           (orM (esp_fail (i2c_master_write_byte cmd
                             (to_uint8 (U_PORT_10BIT_HEADER_WRITE address))
                             true))
              (esp_fail (i2c_master_write_byte cmd
                           (to_uint8 (U_PORT_10BIT_ADDRESS address)) true)))
           errorCode
       else
         platform_if
           (esp_fail (i2c_master_write_byte cmd
                        (to_uint8 (U_PORT_7BIT_ADDRESS_WRITE address)) true))
           errorCode) ;;
    errorCode <-
      (if errorCode =? U_ERROR_COMMON_SUCCESS then
         let errorCode := U_ERROR_COMMON_PLATFORM in
         (* Now add the data, with optional stop marker, and execute it *)
         sent <-
           andM (orM (ret (is_null pData))
                   (esp_ok (i2c_master_write cmd (default 0 pData) size true)))
             (andM (orM (ret noStop) (esp_ok (i2c_master_stop cmd)))
                (esp_ok (i2c_master_cmd_begin handle cmd 0))) ;;
         ret (if sent then U_ERROR_COMMON_SUCCESS else errorCode)
       else ret errorCode) ;;
    call (i2c_cmd_link_delete cmd) ;;;
    ret errorCode
  else ret U_ERROR_COMMON_PLATFORM.

Definition receive (handle address : Z) (pData : Z) (size : Z) : M Z :=
  cmd <- call_cmd_link_create ;;
  started <- esp_ok (i2c_master_start cmd) ;;
  if started then
    let errorCodeOrLength := U_ERROR_COMMON_SUCCESS in
    (* First set up the address *)
    errorCodeOrLength <-
      (if address >? 127 then
         platform_if
           (orM (esp_fail (i2c_master_write_byte cmd
                             (to_uint8 (U_PORT_10BIT_HEADER_WRITE address))
                             true))
              (orM (esp_fail (i2c_master_write_byte cmd
                                (to_uint8 (U_PORT_10BIT_ADDRESS address))
                                true))
                 (orM (esp_fail (i2c_master_start cmd))
                    (esp_fail (i2c_master_write_byte cmd
                                 (to_uint8 (U_PORT_10BIT_HEADER_READ address))
                                 true)))))
           errorCodeOrLength
       else
         platform_if
           (esp_fail (i2c_master_write_byte cmd
                        (to_uint8 (U_PORT_7BIT_ADDRESS_READ address)) true))
           errorCodeOrLength) ;;
    errorCodeOrLength <-
      (if errorCodeOrLength =? U_ERROR_COMMON_SUCCESS then
         (* Now read the data, the last byte with a nack, and execute it *)
         errorCodeOrLength <-
           (if size >? 1 then
              platform_if
                (orM (esp_fail (i2c_master_read cmd pData (size - 1)
                                  I2C_MASTER_ACK))
                   (esp_fail (i2c_master_read_byte cmd (pData + size - 1)
                                I2C_MASTER_LAST_NACK)))
                errorCodeOrLength
            else if size >? 0 then
              platform_if
                (esp_fail (i2c_master_read_byte cmd (pData + size - 1)
                             I2C_MASTER_LAST_NACK))
                errorCodeOrLength
            else ret errorCodeOrLength) ;;
         executed <-
           andM (ret (errorCodeOrLength =? U_ERROR_COMMON_SUCCESS))
             (andM (esp_ok (i2c_master_stop cmd))
                (esp_ok (i2c_master_cmd_begin handle cmd 0))) ;;
         ret (if executed then to_int32 size else errorCodeOrLength)
       else ret errorCodeOrLength) ;;
    call (i2c_cmd_link_delete cmd) ;;;
    ret errorCodeOrLength
  else ret U_ERROR_COMMON_PLATFORM.

(** The configuration both [openI2c] and [uPortI2cSetClock] build. *)
Definition make_cfg (pinSda pinSdc clk_speed : Z) : i2c_config_t :=
  mk_i2c_config I2C_MODE_MASTER pinSda pinSdc true true clk_speed
    U_PORT_I2C_ESP32X3_CLOCK_SOURCE.

Definition openI2c (i2c pinSda pinSdc : Z) (controller adopt : bool) : M Z :=
  s <- get ;;
  if gMutex s then
    if in_range i2c && (clockHertz (data_at s i2c) <? 0) && controller &&
       (adopt || ((pinSda >=? 0) && (pinSdc >=? 0)))
    then
      let cfg := make_cfg pinSda pinSdc U_PORT_I2C_CLOCK_FREQUENCY_HERTZ in
      configured <-
        orM (ret adopt)
          (andM (esp_ok (i2c_param_config i2c cfg))
             (andM (esp_ok (i2c_set_timeout i2c
                              (timeoutMsToEsp32 U_PORT_I2C_CLOCK_PERIOD_NS
                                 U_PORT_I2C_TIMEOUT_MILLISECONDS)))
                (esp_ok (i2c_driver_install i2c I2C_MODE_MASTER)))) ;;
      if configured then
        (* We need to remember the configuration in this case *)
        modify (set_data i2c
                  (mk_data pinSda pinSdc (master_clk_speed cfg) adopt)) ;;;
        U_ATOMIC_INCREMENT ;;;
        (* Return the I2C HW block number as the handle *)
        ret i2c
      else ret U_ERROR_COMMON_PLATFORM
    else ret U_ERROR_COMMON_INVALID_PARAMETER
  else ret U_ERROR_COMMON_NOT_INITIALISED.

(** ** Public functions *)

(** [uPortMutexCreate] belongs to the OS port; its return value is the
    argument [mutexCreate]. *)
Definition uPortI2cInit (mutexCreate : Z) : M Z :=
  s <- get ;;
  if negb (gMutex s) then
    if mutexCreate =? 0 then
      modify (set_mutex true) ;;;
      fold_right
        (fun x k =>
           s <- get ;;
           modify (set_data x (mk_data (-1) (-1) (-1)
                                 (adopted (data_at s x)))) ;;;
           k)
        (ret mutexCreate) (seqZ 0 U_PORT_I2C_MAX_NUM)
    else ret mutexCreate
  else ret U_ERROR_COMMON_SUCCESS.

Definition uPortI2cDeinit : M unit :=
  s <- get ;;
  if gMutex s then
    (* Shut down any open instances *)
    fold_right (fun x k => closeI2c x ;;; k) (ret tt)
      (seqZ 0 U_PORT_I2C_MAX_NUM) ;;;
    modify (set_mutex false)
  else ret tt.

Definition uPortI2cOpen (i2c pinSda pinSdc : Z) (controller : bool) : M Z :=
  openI2c i2c pinSda pinSdc controller false.

Definition uPortI2cAdopt (i2c : Z) (controller : bool) : M Z :=
  openI2c i2c (-1) (-1) controller true.

Definition uPortI2cClose (handle : Z) : M unit :=
  s <- get ;;
  if gMutex s && in_range handle then closeI2c handle else ret tt.

Definition uPortI2cCloseRecoverBus (handle : Z) : M Z :=
  s <- get ;;
  if gMutex s then
    if in_range handle && (clockHertz (data_at s handle) >? 0) then
      if negb (adopted (data_at s handle)) then
        closeI2c handle ;;;
        (* Nothing to do - bus recovery is done as required on ESP-IDF;
           return "not supported" to indicate this *)
        ret U_ERROR_COMMON_NOT_SUPPORTED
      else ret U_ERROR_COMMON_NOT_SUPPORTED
    else ret U_ERROR_COMMON_INVALID_PARAMETER
  else ret U_ERROR_COMMON_NOT_INITIALISED.

Definition uPortI2cSetClock (handle clockHertz' : Z) : M Z :=
  s <- get ;;
  if gMutex s then
    if in_range handle && (clockHertz (data_at s handle) >? 0) &&
       (clockHertz' >? 0)
    then
      if negb (adopted (data_at s handle)) then
        (* The only way to configure the clock is to do a full
           reconfiguration of the instance *)
        xt <- call_get_timeout handle ;;
        let (x, timeoutEsp32) := xt in
        if x =? ESP_OK then
          let cfg := make_cfg (pinSda (data_at s handle))
                       (pinSdc (data_at s handle)) clockHertz' in
          deleted <- esp_ok (i2c_driver_delete handle) ;;
          if deleted then
            (* Mark the instance as not in use in case reconfiguring
               it doesn't work *)
            modify (set_clockHertz handle (-1)) ;;;
            installed <-
              andM (esp_ok (i2c_param_config handle cfg))
                (andM (esp_ok (i2c_set_timeout handle timeoutEsp32))
                   (esp_ok (i2c_driver_install handle I2C_MODE_MASTER))) ;;
            if installed then
              (* All is good *)
              modify (set_pinSda handle (sda_io_num cfg)) ;;;
              modify (set_clockHertz handle clockHertz') ;;;
              ret U_ERROR_COMMON_SUCCESS
            else ret U_ERROR_COMMON_PLATFORM
          else ret U_ERROR_COMMON_PLATFORM
        else ret U_ERROR_COMMON_PLATFORM
      else ret U_ERROR_COMMON_NOT_SUPPORTED
    else ret U_ERROR_COMMON_INVALID_PARAMETER
  else ret U_ERROR_COMMON_NOT_INITIALISED.

Definition uPortI2cGetClock (handle : Z) : M Z :=
  s <- get ;;
  if gMutex s then
    if in_range handle && (clockHertz (data_at s handle) >? 0) then
      if negb (adopted (data_at s handle))
      then ret (clockHertz (data_at s handle))
      else ret U_ERROR_COMMON_NOT_SUPPORTED
    else ret U_ERROR_COMMON_INVALID_PARAMETER
  else ret U_ERROR_COMMON_NOT_INITIALISED.

Definition uPortI2cSetTimeout (handle timeoutMs : Z) : M Z :=
  s <- get ;;
  if gMutex s then
    let errorCode := U_ERROR_COMMON_INVALID_PARAMETER in
    if in_range handle && (clockHertz (data_at s handle) >? 0) &&
       (timeoutMs >? 0)
    then
      if negb (adopted (data_at s handle)) then
        set <- esp_ok (i2c_set_timeout handle
                         (timeoutMsToEsp32 U_PORT_I2C_CLOCK_PERIOD_NS
                            timeoutMs)) ;;
        ret (if set then U_ERROR_COMMON_SUCCESS else U_ERROR_COMMON_PLATFORM)
      else ret errorCode
    else ret errorCode
  else ret U_ERROR_COMMON_NOT_INITIALISED.

(** The result is [None] where [timeoutEsp32ToMs] shifts by a count that C
    leaves undefined. *)
Definition uPortI2cGetTimeout (handle : Z) : M (option Z) :=
  s <- get ;;
  if gMutex s then
    if in_range handle && (clockHertz (data_at s handle) >? 0) then
      xt <- call_get_timeout handle ;;
      let (x, timeoutEsp32) := xt in
      if x =? ESP_OK
      then ret (timeoutEsp32ToMs U_PORT_I2C_CLOCK_PERIOD_NS timeoutEsp32)
      else ret (Some U_ERROR_COMMON_PLATFORM)
    else ret (Some U_ERROR_COMMON_INVALID_PARAMETER)
  else ret (Some U_ERROR_COMMON_NOT_INITIALISED).

Definition uPortI2cControllerSendReceive (handle address : Z)
    (pSend : option Z) (bytesToSend : Z)
    (pReceive : option Z) (bytesToReceive : Z) : M Z :=
  s <- get ;;
  if gMutex s then
    if in_range handle && (clockHertz (data_at s handle) >? 0) &&
       (negb (is_null pSend) || (bytesToSend =? 0)) &&
       (negb (is_null pReceive) || (bytesToReceive =? 0))
    then
      let errorCodeOrLength := U_ERROR_COMMON_SUCCESS in
      errorCodeOrLength <-
        (if negb (is_null pSend)
         then send handle address pSend bytesToSend false
         else ret errorCodeOrLength) ;;
      if (errorCodeOrLength =? U_ERROR_COMMON_SUCCESS) &&
         negb (is_null pReceive)
      then receive handle address (default 0 pReceive) bytesToReceive
      else ret errorCodeOrLength
    else ret U_ERROR_COMMON_INVALID_PARAMETER
  else ret U_ERROR_COMMON_NOT_INITIALISED.

Definition uPortI2cControllerSend (handle address : Z)
    (pSend : option Z) (bytesToSend : Z) (noStop : bool) : M Z :=
  s <- get ;;
  if gMutex s then
    if in_range handle && (clockHertz (data_at s handle) >? 0) &&
       (negb (is_null pSend) || (bytesToSend =? 0))
    then send handle address pSend bytesToSend noStop
    else ret U_ERROR_COMMON_INVALID_PARAMETER
  else ret U_ERROR_COMMON_NOT_INITIALISED.

Definition uPortI2cResourceAllocCount : M Z :=
  s <- get ;; ret (gResourceAllocCount s).

(** ** Reading the record of driver calls *)

(** Run a function of the file from a state, against a driver. *)
Definition run {A} (m : M A) (d : Driver) (s : State) : A * State := m d s.

(** The calls a run added to the record. *)
Definition new_calls (before after : State) : list DrvCall :=
  drop (length (calls before)) (calls after).

(** A driver that accepts every call: command links are handed out at
    [link], the timeout register reads [reg]. *)
Definition drv_accepting (link reg : Z) : Driver :=
  mk_driver (fun _ _ => ESP_OK) (fun _ => link) (fun _ _ => reg).

(** A driver that refuses exactly the calls for which [refuse] holds. *)
Definition drv_refusing (refuse : DrvCall -> bool) (link reg : Z) : Driver :=
  mk_driver (fun _ c => if refuse c then -1 else ESP_OK)
    (fun _ => link) (fun _ _ => reg).

(** Sample states: after init, after opening block 0 on pins 4 and 5, and
    after adopting block 1 as well. *)
Definition s_init : State :=
  snd (run (uPortI2cInit 0) (drv_accepting 7 19) boot_state).
Definition s_open0 : State :=
  snd (run (uPortI2cOpen 0 4 5 true) (drv_accepting 7 19) s_init).
Definition s_adopt1 : State :=
  snd (run (uPortI2cAdopt 1 true) (drv_accepting 7 19) s_open0).

(** * Theorems *)

(** ** Fixed-width conversions *)

Lemma to_uint32_small (z : Z) : 0 <= z < 2 ^ 32 -> to_uint32 z = z.
Proof. intros H. unfold to_uint32. apply Z.mod_small. exact H. Qed.

Lemma to_int32_small (z : Z) : - 2 ^ 31 <= z < 2 ^ 31 -> to_int32 z = z.
Proof. intros H. unfold to_int32. rewrite Z.mod_small; lia. Qed.

Lemma ulong_shl1_pow (x : Z) : 0 <= x < 32 -> ulong_shl1 x = 2 ^ x.
Proof.
  intros H. unfold ulong_shl1. rewrite Z.shiftl_1_l.
  apply to_uint32_small. split; [lia |].
  apply Z.pow_lt_mono_r; lia.
Qed.

(** ** Searching a list *)

Lemma find_app_found {A} (f : A -> bool) (l1 l2 : list A) (a : A) :
  find f l1 = Some a -> find f (l1 ++ l2) = Some a.
Proof.
  induction l1 as [| x l1 IH]; simpl; [discriminate |].
  destruct (f x); [trivial | exact IH].
Qed.

Lemma find_app_missing {A} (f : A -> bool) (l1 l2 : list A) :
  find f l1 = None -> find f (l1 ++ l2) = find f l2.
Proof.
  induction l1 as [| x l1 IH]; simpl; [reflexivity |].
  destruct (f x); [discriminate | exact IH].
Qed.

(** A check that evaluates to true on a whole range holds at each point. *)
Lemma forallb_seqZ (f : Z -> bool) (lo n x : Z) :
  forallb f (seqZ lo n) = true -> lo <= x < lo + n -> f x = true.
Proof.
  intros Hall Hx. rewrite forallb_forall in Hall. apply Hall.
  apply list_elem_of_In, elem_of_seqZ. exact Hx.
Qed.

(** ** Timeout unit conversion *)

Section TimeoutFacts.

Variable period_ns : Z.
(** Both configured periods are far below this bound, under which
    [2^22 * period_ns] still fits an [unsigned long]. *)
Hypothesis period_range : 0 < period_ns <= 1023.

Lemma periods_to_ms_register (x : Z) :
  0 <= x <= 22 -> periods_to_ms period_ns x = register_ms period_ns x.
Proof.
  intros Hx. unfold periods_to_ms, register_ms.
  rewrite ulong_shl1_pow by lia.
  assert (Hp : 0 < 2 ^ x <= 2 ^ 22).
  { split; [lia |]. apply Z.pow_le_mono_r; lia. }
  assert (Hm : 0 <= 2 ^ x * period_ns < 2 ^ 32) by nia.
  rewrite to_uint32_small by exact Hm.
  apply to_int32_small.
  assert (0 <= 2 ^ x * period_ns / 1000000) by (apply Z.div_pos; lia).
  assert (2 ^ x * period_ns / 1000000 < 2 ^ 31).
  { apply Z.div_lt_upper_bound; lia. }
  lia.
Qed.

(** Once a register value has been found the loop is left. *)
Lemma timeoutMsToEsp32_loop_found (n : nat) (x ms t : Z) :
  0 <= t -> timeoutMsToEsp32_loop period_ns n x ms t = t.
Proof.
  intros Ht. destruct n as [| n]; simpl; [reflexivity |].
  replace (t <? 0) with false by (symmetry; apply Z.ltb_ge; lia).
  rewrite andb_false_r. reflexivity.
Qed.

(** The loop stops by itself at the register bound: rounds beyond
    [U_PORT_I2C_ESP32X3_TIMEOUT_REGISTER_MAX - x] change nothing. *)
Lemma timeoutMsToEsp32_loop_more (n m : nat) (x ms t : Z) :
  0 <= x ->
  U_PORT_I2C_ESP32X3_TIMEOUT_REGISTER_MAX <= x + Z.of_nat n ->
  timeoutMsToEsp32_loop period_ns (n + m) x ms t =
  timeoutMsToEsp32_loop period_ns n x ms t.
Proof.
  revert x t. induction n as [| n IH]; intros x t Hx Hn.
  - simpl. destruct m as [| m]; simpl; [reflexivity |].
    replace (x <? U_PORT_I2C_ESP32X3_TIMEOUT_REGISTER_MAX) with false
      by (symmetry; apply Z.ltb_ge; lia).
    reflexivity.
  - simpl.
    destruct (x <? U_PORT_I2C_ESP32X3_TIMEOUT_REGISTER_MAX) eqn:Hlt;
      [| reflexivity].
    destruct (t <? 0); [| reflexivity]. simpl.
    apply Z.ltb_lt in Hlt.
    unfold U_PORT_I2C_ESP32X3_TIMEOUT_REGISTER_MAX in *.
    rewrite (to_uint32_small (x + 1)) by lia.
    apply IH; lia.
Qed.

(** What the loop computes from round [x] on: the first register value in
    [x, 22) whose timeout reaches the request. *)
Lemma timeoutMsToEsp32_loop_find (n : nat) (x ms : Z) :
  0 <= x ->
  x + Z.of_nat n = U_PORT_I2C_ESP32X3_TIMEOUT_REGISTER_MAX ->
  timeoutMsToEsp32_loop period_ns n x ms (-1) =
  match find (fun k => ms <=? register_ms period_ns k)
          (seqZ x (Z.of_nat n)) with
  | Some k => k
  | None => -1
  end.
Proof.
  revert x. induction n as [| n IH]; intros x Hx Hn; [reflexivity |].
  unfold U_PORT_I2C_ESP32X3_TIMEOUT_REGISTER_MAX in *.
  rewrite seqZ_cons by lia. simpl find.
  cbn [timeoutMsToEsp32_loop].
  unfold U_PORT_I2C_ESP32X3_TIMEOUT_REGISTER_MAX.
  replace (x <? 22) with true by (symmetry; apply Z.ltb_lt; lia).
  cbn [andb Z.ltb Z.compare].
  rewrite periods_to_ms_register by lia.
  rewrite (to_uint32_small (x + 1)) by lia.
  rewrite (to_int32_small x) by lia.
  rewrite Z.geb_leb.
  destruct (ms <=? register_ms period_ns x).
  - apply timeoutMsToEsp32_loop_found. exact Hx.
  - replace (Z.pred (Z.of_nat (S n))) with (Z.of_nat n) by lia.
    replace (Z.succ x) with (x + 1) by lia.
    apply IH; lia.
Qed.

(** The search of the code covers the register values 0 to 21. *)
Lemma timeoutMsToEsp32_smallest (ms : Z) :
  timeoutMsToEsp32 period_ns ms = smallest_register period_ns 21 ms.
Proof.
  unfold timeoutMsToEsp32, smallest_register.
  rewrite timeoutMsToEsp32_loop_find; [reflexivity | lia | reflexivity].
Qed.

Lemma register_ms_mono (x x' : Z) :
  0 <= x <= x' -> register_ms period_ns x <= register_ms period_ns x'.
Proof.
  intros H. unfold register_ms. apply Z.div_le_mono; [lia |].
  apply Z.mul_le_mono_nonneg_r; [lia |].
  apply Z.pow_le_mono_r; lia.
Qed.

(** A request that some register value up to [hi] reaches is answered by
    every search whose range is at least that wide, with the same value. *)
Lemma smallest_register_wider (hi hi' ms : Z) :
  0 <= hi <= hi' ->
  ms <= register_ms period_ns hi ->
  smallest_register period_ns hi' ms = smallest_register period_ns hi ms.
Proof.
  intros Hhi Hms. unfold smallest_register.
  replace (hi' + 1) with ((hi + 1) + (hi' - hi)) by lia.
  rewrite seqZ_app by lia.
  destruct (find (fun x => ms <=? register_ms period_ns x)
              (seqZ 0 (hi + 1))) as [k |] eqn:Hfind.
  - erewrite find_app_found; [reflexivity | exact Hfind].
  - exfalso.
    assert (Hnone : (ms <=? register_ms period_ns hi) = false).
    { apply (find_none _ _ Hfind hi).
      apply list_elem_of_In, elem_of_seqZ. lia. }
    apply Z.leb_gt in Hnone. lia.
Qed.

(** A request above the timeout of [hi] finds nothing up to [hi]. *)
Lemma smallest_register_none (hi ms : Z) :
  0 <= hi ->
  register_ms period_ns hi < ms ->
  smallest_register period_ns hi ms = -1.
Proof.
  intros Hhi Hms. unfold smallest_register.
  destruct (find (fun x => ms <=? register_ms period_ns x)
              (seqZ 0 (hi + 1))) as [k |] eqn:Hfind; [| reflexivity].
  exfalso. apply find_some in Hfind as [Hin Hk].
  apply list_elem_of_In, elem_of_seqZ in Hin.
  apply Z.leb_le in Hk.
  pose proof (register_ms_mono k hi). lia.
Qed.

(** On requests that register value 21 reaches, the code is the search the
    specification describes. *)
Lemma timeoutMsToEsp32_agrees_to_21 (ms : Z) :
  ms <= register_ms period_ns 21 ->
  timeoutMsToEsp32 period_ns ms = msToRegister_spec period_ns ms.
Proof.
  intros Hms. rewrite timeoutMsToEsp32_smallest. unfold msToRegister_spec.
  symmetry. apply smallest_register_wider; [lia | exact Hms].
Qed.

(** On requests that only register value 22 reaches, the code gives up
    where the specification's search answers 22. *)
Lemma timeoutMsToEsp32_differs_at_22 (ms : Z) :
  register_ms period_ns 21 < ms <= register_ms period_ns 22 ->
  timeoutMsToEsp32 period_ns ms = -1 /\ msToRegister_spec period_ns ms = 22.
Proof.
  intros [Hlo Hhi]. split.
  - rewrite timeoutMsToEsp32_smallest.
    apply smallest_register_none; [lia | exact Hlo].
  - unfold msToRegister_spec, smallest_register.
    replace (22 + 1) with ((21 + 1) + 1) by lia.
    rewrite seqZ_app by lia.
    pose proof (smallest_register_none 21 ms ltac:(lia) Hlo) as Hnone.
    unfold smallest_register in Hnone.
    destruct (find (fun x => ms <=? register_ms period_ns x)
                (seqZ 0 (21 + 1))) as [k |] eqn:Hfind.
    + exfalso. apply find_some in Hfind as [Hin _].
      apply list_elem_of_In, elem_of_seqZ in Hin. lia.
    + rewrite (find_app_missing _ _ _ Hfind).
      change (seqZ (0 + (21 + 1)) 1) with [22]. simpl.
      replace (ms <=? register_ms period_ns 22) with true
        by (symmetry; apply Z.leb_le; exact Hhi).
      reflexivity.
Qed.

End TimeoutFacts.

(** *** The round trip through the register *)

(** "[registerToMs(msToRegister(ms)) >= ms] and is less than the value for
    [register+1]", for a search [toRegister] and the forward formula [toMs];
    an undefined conversion does not satisfy it. *)
Definition roundtrip_in_bounds (toRegister : Z -> Z) (toMs : Z -> option Z)
    (ms : Z) : bool :=
  match toMs (toRegister ms), toMs (toRegister ms + 1) with
  | Some back, Some next => (ms <=? back) && (back <? next)
  | _, _ => false
  end.

(** On the code, the round trip is within bounds for requests of 1 to 52 ms. *)
Lemma roundtrip_code_to_52 (ms : Z) :
  1 <= ms <= 52 ->
  roundtrip_in_bounds (timeoutMsToEsp32 U_PORT_I2C_CLOCK_PERIOD_NS)
    (timeoutEsp32ToMs U_PORT_I2C_CLOCK_PERIOD_NS) ms = true.
Proof.
  intros H.
  apply (forallb_seqZ
           (roundtrip_in_bounds (timeoutMsToEsp32 U_PORT_I2C_CLOCK_PERIOD_NS)
              (timeoutEsp32ToMs U_PORT_I2C_CLOCK_PERIOD_NS)) 1 52);
    [vm_compute; reflexivity | lia].
Qed.

(** On the code, it is out of bounds for every request of 53 to 104 ms. *)
Lemma roundtrip_code_from_53 (ms : Z) :
  53 <= ms <= 104 ->
  roundtrip_in_bounds (timeoutMsToEsp32 U_PORT_I2C_CLOCK_PERIOD_NS)
    (timeoutEsp32ToMs U_PORT_I2C_CLOCK_PERIOD_NS) ms = false.
Proof.
  intros H.
  apply negb_true_iff.
  apply (forallb_seqZ
           (fun ms =>
              negb (roundtrip_in_bounds
                      (timeoutMsToEsp32 U_PORT_I2C_CLOCK_PERIOD_NS)
                      (timeoutEsp32ToMs U_PORT_I2C_CLOCK_PERIOD_NS) ms)) 53 52);
    [vm_compute; reflexivity | lia].
Qed.

(** With the search the specification describes, which tries 22 as well, it
    is within bounds on all of 1 to 104 ms. *)
Lemma roundtrip_spec_to_104 (ms : Z) :
  1 <= ms <= 104 ->
  roundtrip_in_bounds (msToRegister_spec U_PORT_I2C_CLOCK_PERIOD_NS)
    (timeoutEsp32ToMs U_PORT_I2C_CLOCK_PERIOD_NS) ms = true.
Proof.
  intros H.
  apply (forallb_seqZ
           (roundtrip_in_bounds (msToRegister_spec U_PORT_I2C_CLOCK_PERIOD_NS)
              (timeoutEsp32ToMs U_PORT_I2C_CLOCK_PERIOD_NS)) 1 104);
    [vm_compute; reflexivity | lia].
Qed.

(** C1. The claim reads: for the power-of-two encoding, [timeoutMsToEsp32]
    returns the smallest register value in [0, 22] whose timeout in whole
    milliseconds reaches the request, 22 included. The loop of the code
    stops before 22: for a request of 100 ms, which only register value 22
    reaches (104 ms), the code returns -1 where the search of the claim
    returns 22. *)
Theorem timeoutMsToEsp32_never_tries_22 :
  timeoutMsToEsp32 U_PORT_I2C_CLOCK_PERIOD_NS 100 = -1 /\
  msToRegister_spec U_PORT_I2C_CLOCK_PERIOD_NS 100 = 22 /\
  register_ms U_PORT_I2C_CLOCK_PERIOD_NS 22 = 104.
Proof. repeat split; vm_compute; reflexivity. Qed.

(** C3. The claim reads: for every request of 1 to 104 ms the round trip
    [timeoutEsp32ToMs (timeoutMsToEsp32 ms)] is at least the request and
    below the value of the next register. At 53 ms the code's search has
    already run out ([timeoutMsToEsp32] is -1) and the way back shifts by
    -1, which is undefined; the round trip is not within bounds. *)
Theorem roundtrip_lost_at_53 :
  timeoutMsToEsp32 U_PORT_I2C_CLOCK_PERIOD_NS 53 = -1 /\
  timeoutEsp32ToMs U_PORT_I2C_CLOCK_PERIOD_NS (-1) = None /\
  roundtrip_in_bounds (timeoutMsToEsp32 U_PORT_I2C_CLOCK_PERIOD_NS)
    (timeoutEsp32ToMs U_PORT_I2C_CLOCK_PERIOD_NS) 53 = false.
Proof. repeat split; vm_compute; reflexivity. Qed.

(** ** The resource table *)

(** Push a run through the binds that have been unfolded. *)
Ltac m_reduce := cbv beta iota zeta; cbn [andb orb negb fst snd].

(** Read the fields of a state through the updates made to it. *)
Ltac m_calls :=
  cbn [calls gMutex gI2cData gResourceAllocCount record_call set_clockHertz
       set_pinSda set_data set_count set_mutex].

Lemma in_range_outside (i : Z) :
  - 2 ^ 31 <= i <= INT32_MAX ->
  i < 0 \/ U_PORT_I2C_MAX_NUM <= i ->
  in_range i = false.
Proof.
  unfold in_range, INT32_MAX, U_PORT_I2C_MAX_NUM. intros Hr [Hneg | Hbig].
  - rewrite Z.geb_leb.
    replace (0 <=? i) with false by (symmetry; apply Z.leb_gt; lia).
    reflexivity.
  - rewrite to_uint32_small by lia.
    replace (i <? 2) with false by (symmetry; apply Z.ltb_ge; lia).
    apply andb_false_r.
Qed.

Lemma in_range_inside (i : Z) :
  0 <= i < U_PORT_I2C_MAX_NUM -> in_range i = true.
Proof.
  unfold in_range, U_PORT_I2C_MAX_NUM. intros Hr.
  rewrite to_uint32_small by lia. rewrite Z.geb_leb.
  apply andb_true_iff. split; [apply Z.leb_le | apply Z.ltb_lt]; lia.
Qed.

(** A slot that reads as open is a slot of the table. *)
Lemma open_slot_lookup (s : State) (i : Z) :
  0 < clockHertz (data_at s i) ->
  gI2cData s !! Z.to_nat i = Some (data_at s i).
Proof.
  unfold data_at. destruct (gI2cData s !! Z.to_nat i) as [d0 |]; simpl.
  - reflexivity.
  - lia.
Qed.

Lemma data_at_set_data (s : State) (i : Z) (d0 d1 : uPortI2cData_t) :
  gI2cData s !! Z.to_nat i = Some d0 ->
  data_at (set_data i d1 s) i = d1.
Proof.
  intros Hl. unfold data_at, set_data. simpl.
  rewrite list_lookup_insert_eq; [reflexivity |].
  eapply lookup_lt_Some. exact Hl.
Qed.

Lemma clockHertz_set_clockHertz (s : State) (i hz : Z) :
  0 < clockHertz (data_at s i) ->
  clockHertz (data_at (set_clockHertz i hz s) i) = hz.
Proof.
  intros Hopen. unfold set_clockHertz.
  erewrite data_at_set_data; [reflexivity |].
  apply open_slot_lookup. exact Hopen.
Qed.

(** C8. With the table initialised, [openI2c] answers InvalidParameter when
    the index is out of range, or the slot is already open (whatever the
    adopt flag), or [controller] is false, or it is not adopting and a pin is
    the unset sentinel -1; nothing changes then. When adopting, a closed
    slot of a valid index is opened with any pins, the unset ones included,
    without a driver call. *)
Theorem openI2c_invalid_parameter (d : Driver) (s : State)
    (i2c pinSda pinSdc : Z) (controller adopt : bool) :
  gMutex s = true ->
  - 2 ^ 31 <= i2c <= INT32_MAX ->
  ((i2c < 0 \/ U_PORT_I2C_MAX_NUM <= i2c) \/
   0 < clockHertz (data_at s i2c) \/
   controller = false \/
   (adopt = false /\ (pinSda = -1 \/ pinSdc = -1)) ->
   run (openI2c i2c pinSda pinSdc controller adopt) d s =
   (U_ERROR_COMMON_INVALID_PARAMETER, s)) /\
  (adopt = true -> controller = true ->
   0 <= i2c < U_PORT_I2C_MAX_NUM -> clockHertz (data_at s i2c) < 0 ->
   fst (run (openI2c i2c pinSda pinSdc controller adopt) d s) = i2c /\
   calls (snd (run (openI2c i2c pinSda pinSdc controller adopt) d s)) =
   calls s).
Proof.
  intros Hm Hr. unfold run, openI2c, bind, get. rewrite Hm. split.
  - intros Hbad.
    assert (Hcond :
      in_range i2c && (clockHertz (data_at s i2c) <? 0) && controller &&
      (adopt || ((pinSda >=? 0) && (pinSdc >=? 0))) = false);
      [| rewrite Hcond; reflexivity].
    destruct Hbad as [Hout | [Hopen | [Hctl | [Hadopt Hpin]]]].
    + rewrite in_range_outside by assumption. reflexivity.
    + replace (clockHertz (data_at s i2c) <? 0) with false
        by (symmetry; apply Z.ltb_ge; lia).
      rewrite andb_false_r. reflexivity.
    + rewrite Hctl, andb_false_r. reflexivity.
    + rewrite Hadopt. simpl orb.
      destruct Hpin as [-> | ->]; simpl; rewrite ?andb_false_r; reflexivity.
  - intros -> -> Hi Hclosed.
    rewrite in_range_inside by exact Hi.
    replace (clockHertz (data_at s i2c) <? 0) with true
      by (symmetry; apply Z.ltb_lt; lia).
    simpl. split; reflexivity.
Qed.

Lemma openI2c_invalid_parameter_witness :
  gMutex s_open0 = true /\
  run (openI2c 0 (-1) (-1) true true) (drv_accepting 7 19) s_open0 =
  (U_ERROR_COMMON_INVALID_PARAMETER, s_open0) /\
  fst (run (openI2c 1 (-1) (-1) true true) (drv_accepting 7 19) s_open0) = 1.
Proof.
  split; [reflexivity |]. split.
  - apply (openI2c_invalid_parameter (drv_accepting 7 19) s_open0
             0 (-1) (-1) true true);
      [reflexivity | vm_compute; split; discriminate |].
    right. left. vm_compute. reflexivity.
  - apply (openI2c_invalid_parameter (drv_accepting 7 19) s_open0
             1 (-1) (-1) true true);
      [reflexivity | vm_compute; split; discriminate
      | reflexivity | reflexivity | vm_compute; split; [discriminate | reflexivity]
      | vm_compute; reflexivity].
Defined.

(** The number of slots that are open. *)
Definition open_slots (s : State) : Z :=
  Z.of_nat (length (List.filter (fun d => 0 <? clockHertz d) (gI2cData s))).

Lemma open_slots_close (l : list uPortI2cData_t) (i : nat)
    (d0 d1 : uPortI2cData_t) :
  l !! i = Some d0 -> 0 < clockHertz d0 -> clockHertz d1 <= 0 ->
  Z.of_nat (length (List.filter (fun d => 0 <? clockHertz d) (<[i := d1]> l))) =
  Z.of_nat (length (List.filter (fun d => 0 <? clockHertz d) l)) - 1.
Proof.
  revert i. induction l as [| a l IH]; intros i Hl H0 H1.
  - destruct i; discriminate.
  - destruct i as [| i]; simpl in *.
    + injection Hl as ->.
      replace (0 <? clockHertz d0) with true by (symmetry; apply Z.ltb_lt; lia).
      replace (0 <? clockHertz d1) with false by (symmetry; apply Z.ltb_ge; lia).
      simpl. lia.
    + specialize (IH i Hl H0 H1).
      destruct (0 <? clockHertz a); simpl; lia.
Qed.

(** C9. On a valid, open, non-adopted handle of an initialised table,
    [uPortI2cCloseRecoverBus] returns NotSupported and has closed the
    instance all the same: the one driver call made is the deletion of the
    driver, the slot's [clockHertz] is -1 and the counter of open instances
    is one less. *)
Theorem uPortI2cCloseRecoverBus_closes (d : Driver) (s : State) (handle : Z) :
  gMutex s = true ->
  0 <= handle < U_PORT_I2C_MAX_NUM ->
  0 < clockHertz (data_at s handle) ->
  adopted (data_at s handle) = false ->
  0 < gResourceAllocCount s <= INT32_MAX ->
  let s' := snd (run (uPortI2cCloseRecoverBus handle) d s) in
  fst (run (uPortI2cCloseRecoverBus handle) d s) =
    U_ERROR_COMMON_NOT_SUPPORTED /\
  new_calls s s' = [i2c_driver_delete handle] /\
  clockHertz (data_at s' handle) = -1 /\
  gResourceAllocCount s' = gResourceAllocCount s - 1.
Proof.
  intros Hm Hr Hopen Hown Hcount.
  assert (Hgt : (clockHertz (data_at s handle) >? 0) = true)
    by (apply Z.gtb_lt; lia).
  pose proof (in_range_inside _ Hr) as Hin.
  unfold run, uPortI2cCloseRecoverBus, closeI2c, U_ATOMIC_DECREMENT, modify,
    call, bind, get, ret.
  m_reduce; rewrite Hm, Hin, Hgt, Hown.
  m_reduce; rewrite Hgt, Hown.
  m_reduce. repeat split.
  - unfold new_calls. cbn. apply drop_app_length.
  - apply (clockHertz_set_clockHertz (record_call (i2c_driver_delete handle) s)).
    exact Hopen.
  - unfold INT32_MAX in Hcount. apply to_int32_small. lia.
Qed.

Lemma uPortI2cCloseRecoverBus_closes_witness :
  fst (run (uPortI2cCloseRecoverBus 0) (drv_accepting 7 19) s_adopt1) =
    U_ERROR_COMMON_NOT_SUPPORTED /\
  clockHertz (data_at
    (snd (run (uPortI2cCloseRecoverBus 0) (drv_accepting 7 19) s_adopt1)) 0)
  = -1 /\
  gResourceAllocCount
    (snd (run (uPortI2cCloseRecoverBus 0) (drv_accepting 7 19) s_adopt1)) = 1.
Proof.
  assert (H := uPortI2cCloseRecoverBus_closes (drv_accepting 7 19) s_adopt1 0
                 eq_refl ltac:(vm_compute; split; [discriminate | reflexivity])
                 eq_refl eq_refl
                 ltac:(vm_compute; split; [reflexivity | discriminate])).
  destruct H as [Hret [_ [Hclk Hcnt]]].
  split; [exact Hret |]. split; [exact Hclk | exact Hcnt].
Defined.

(** *** Reconfiguring the clock *)

(** The answers of the driver along a call of [uPortI2cSetClock] on an open,
    owned slot: [torn_down] says that the timeout was read and the old driver
    deleted, [reinstalled] that the three steps which build the new
    configuration all went through. *)
Section SetClockAnswers.

Variables (d : Driver) (s : State) (handle hz : Z).

Let cfg : i2c_config_t :=
  make_cfg (pinSda (data_at s handle)) (pinSdc (data_at s handle)) hz.
Let timeoutEsp32 : Z := drv_timeout d (calls s) handle.
Let c1 : list DrvCall := calls s ++ [i2c_get_timeout handle].
Let c2 : list DrvCall := c1 ++ [i2c_driver_delete handle].
Let c3 : list DrvCall := c2 ++ [i2c_param_config handle cfg].
Let c4 : list DrvCall := c3 ++ [i2c_set_timeout handle timeoutEsp32].

Definition torn_down : bool :=
  (drv_result d (calls s) (i2c_get_timeout handle) =? ESP_OK) &&
  (drv_result d c1 (i2c_driver_delete handle) =? ESP_OK).

Definition reinstalled : bool :=
  (drv_result d c2 (i2c_param_config handle cfg) =? ESP_OK) &&
  (drv_result d c3 (i2c_set_timeout handle timeoutEsp32) =? ESP_OK) &&
  (drv_result d c4 (i2c_driver_install handle I2C_MODE_MASTER) =? ESP_OK).

Hypothesis initialised : gMutex s = true.
Hypothesis valid : 0 <= handle < U_PORT_I2C_MAX_NUM.
Hypothesis is_open : 0 < clockHertz (data_at s handle).
Hypothesis owned : adopted (data_at s handle) = false.
Hypothesis positive : 0 < hz.
Hypothesis deleted : torn_down = true.
Hypothesis not_rebuilt : reinstalled = false.

(** What is left behind: a Platform error, the slot with its clock at -1
    and otherwise as it was, the counter untouched. *)
Lemma uPortI2cSetClock_left_closed :
  let s' := snd (run (uPortI2cSetClock handle hz) d s) in
  fst (run (uPortI2cSetClock handle hz) d s) = U_ERROR_COMMON_PLATFORM /\
  gI2cData s' = gI2cData (set_clockHertz handle (-1) s) /\
  gResourceAllocCount s' = gResourceAllocCount s.
Proof.
  assert (Hgt : (clockHertz (data_at s handle) >? 0) = true)
    by (apply Z.gtb_lt; lia).
  assert (Hhz : (hz >? 0) = true) by (apply Z.gtb_lt; lia).
  pose proof (in_range_inside _ valid) as Hin.
  unfold torn_down in deleted. apply andb_true_iff in deleted as [Hget Hdel].
  unfold reinstalled in not_rebuilt.
  subst c4 c3 c2 c1 timeoutEsp32 cfg.
  unfold run, uPortI2cSetClock, call_get_timeout, andM, esp_ok, modify, call,
    bind, get, ret.
  m_reduce. rewrite initialised, Hin, Hgt, Hhz, owned.
  m_reduce. rewrite Hget.
  m_reduce. m_calls. rewrite Hdel.
  m_reduce. m_calls.
  repeat match goal with
         | |- context [drv_result d ?h ?c =? ESP_OK] =>
             destruct (drv_result d h c =? ESP_OK); m_reduce; m_calls
         end;
    first [discriminate not_rebuilt | repeat split; reflexivity].
Qed.

End SetClockAnswers.

(** C6. On a valid, open, non-adopted handle and with a positive clock, when
    the driver was deleted but the parameter configuration, the timeout
    setting or the driver installation that follows failed,
    [uPortI2cSetClock] returns the Platform error and leaves the slot closed,
    its [clockHertz] being -1. *)
Theorem uPortI2cSetClock_fails_closed (d : Driver) (s : State)
    (handle hz : Z) :
  gMutex s = true ->
  0 <= handle < U_PORT_I2C_MAX_NUM ->
  0 < clockHertz (data_at s handle) ->
  adopted (data_at s handle) = false ->
  0 < hz ->
  torn_down d s handle = true ->
  reinstalled d s handle hz = false ->
  fst (run (uPortI2cSetClock handle hz) d s) = U_ERROR_COMMON_PLATFORM /\
  clockHertz (data_at (snd (run (uPortI2cSetClock handle hz) d s)) handle)
  = -1.
Proof.
  intros Hm Hr Hopen Hown Hhz Hdel Hfail.
  destruct (uPortI2cSetClock_left_closed d s handle hz Hm Hr Hopen Hown Hhz
              Hdel Hfail) as [Hret [Htable _]].
  split; [exact Hret |].
  unfold data_at at 1. rewrite Htable.
  apply (clockHertz_set_clockHertz s handle (-1) Hopen).
Qed.

(** A driver that refuses to install: everything else goes through. *)
Definition drv_no_install : Driver :=
  drv_refusing
    (fun c => match c with i2c_driver_install _ _ => true | _ => false end)
    7 19.

Lemma uPortI2cSetClock_fails_closed_witness :
  fst (run (uPortI2cSetClock 0 400000) drv_no_install s_adopt1) =
    U_ERROR_COMMON_PLATFORM /\
  clockHertz
    (data_at (snd (run (uPortI2cSetClock 0 400000) drv_no_install s_adopt1)) 0)
  = -1.
Proof.
  apply (uPortI2cSetClock_fails_closed drv_no_install s_adopt1 0 400000);
    first [reflexivity | vm_compute; split; [discriminate | reflexivity]].
Defined.

(** C10. When [uPortI2cSetClock] fails after the driver has been deleted, the
    slot is marked closed and the counter of open instances is left as it
    was: starting from a state where the counter equals the number of open
    slots, [uPortI2cResourceAllocCount] afterwards is strictly greater than
    the number of slots with a positive [clockHertz]. *)
Theorem uPortI2cSetClock_breaks_count (d : Driver) (s : State)
    (handle hz : Z) :
  gMutex s = true ->
  0 <= handle < U_PORT_I2C_MAX_NUM ->
  0 < clockHertz (data_at s handle) ->
  adopted (data_at s handle) = false ->
  0 < hz ->
  torn_down d s handle = true ->
  reinstalled d s handle hz = false ->
  gResourceAllocCount s = open_slots s ->
  let s' := snd (run (uPortI2cSetClock handle hz) d s) in
  clockHertz (data_at s' handle) = -1 /\
  gResourceAllocCount s' = gResourceAllocCount s /\
  open_slots s' = open_slots s - 1 /\
  fst (run uPortI2cResourceAllocCount d s') > open_slots s'.
Proof.
  intros Hm Hr Hopen Hown Hhz Hdel Hfail Hinv s'.
  destruct (uPortI2cSetClock_left_closed d s handle hz Hm Hr Hopen Hown Hhz
              Hdel Hfail) as [_ [Htable Hcount]].
  fold s' in Htable, Hcount.
  assert (Hslots : open_slots s' = open_slots s - 1).
  { unfold open_slots. rewrite Htable.
    unfold set_clockHertz, set_data. cbn [gI2cData].
    eapply open_slots_close.
    - apply open_slot_lookup. exact Hopen.
    - exact Hopen.
    - simpl. lia. }
  repeat split.
  - unfold data_at at 1. rewrite Htable.
    apply (clockHertz_set_clockHertz s handle (-1) Hopen).
  - exact Hcount.
  - exact Hslots.
  - unfold run, uPortI2cResourceAllocCount, bind, get, ret. m_reduce. lia.
Qed.

Lemma uPortI2cSetClock_breaks_count_witness :
  gResourceAllocCount s_adopt1 = open_slots s_adopt1 /\
  fst (run uPortI2cResourceAllocCount drv_no_install
         (snd (run (uPortI2cSetClock 0 400000) drv_no_install s_adopt1))) >
  open_slots (snd (run (uPortI2cSetClock 0 400000) drv_no_install s_adopt1)).
Proof.
  split; [reflexivity |].
  apply (uPortI2cSetClock_breaks_count drv_no_install s_adopt1 0 400000);
    first [reflexivity | vm_compute; split; [discriminate | reflexivity]].
Defined.

(** ** The transfer engine *)

Definition is_read (c : DrvCall) : bool :=
  match c with
  | i2c_master_read _ _ _ _ | i2c_master_read_byte _ _ _ => true
  | _ => false
  end.

Definition is_stop (c : DrvCall) : bool :=
  match c with i2c_master_stop _ => true | _ => false end.

(** Command links created and not yet deleted along a list of calls. *)
Definition links_outstanding (cs : list DrvCall) : Z :=
  Z.of_nat (length (List.filter
              (fun c => match c with i2c_cmd_link_create => true | _ => false end)
              cs)) -
  Z.of_nat (length (List.filter
              (fun c => match c with i2c_cmd_link_delete _ => true | _ => false end)
              cs)).

Lemma new_calls_app (s s' : State) (cs : list DrvCall) :
  calls s' = calls s ++ cs -> new_calls s s' = cs.
Proof. intros H. unfold new_calls. rewrite H. apply drop_app_length. Qed.

(** Unfold the engine down to the oracle's answers. *)
Ltac m_unfold :=
  unfold run, send, receive, platform_if, andM, orM, esp_ok, esp_fail,
    call_cmd_link_create, call_get_timeout, call, modify, bind, get, ret.

(** Decide the comparisons between error codes. *)
Ltac m_codes :=
  cbn [Z.eqb Pos.eqb ESP_OK U_ERROR_COMMON_SUCCESS U_ERROR_COMMON_PLATFORM].

Ltac m_norm := do 2 (m_codes; m_reduce; m_calls).

(** Follow every answer the driver can give, one call at a time. *)
Ltac m_cases d :=
  repeat (m_norm;
          match goal with
          | |- context [drv_result d ?h ?c =? ?ok] =>
              destruct (drv_result d h c =? ok) eqn:?
          end);
  m_norm.

(** Bring the calls a run has added into the open. *)
Ltac m_new_calls :=
  unfold new_calls; m_calls; rewrite <- ?app_assoc; cbn [app];
  rewrite ?drop_app_length.

(** With a driver that accepts every call, follow the one path there is. *)
Ltac m_accept Hok :=
  repeat (progress (m_norm; rewrite ?Hok)); m_norm.

(** C7. With a driver that accepts every primitive, [receive] of one byte
    issues a single one-byte read with the final no-ack and no multi-byte
    read; of more than one byte, one read of [size - 1] bytes with
    acknowledge followed by the one-byte read of the last byte with no-ack;
    of zero bytes, no read. In each case the reads are followed by stop,
    execute and the release of the link, and what is returned is [size]. *)
Theorem receive_read_phase (d : Driver) (s : State)
    (handle address pData size : Z) :
  (forall h c, drv_result d h c = ESP_OK) ->
  0 <= size <= INT32_MAX ->
  let cmd := drv_handle d (calls s) in
  let r := run (receive handle address pData size) d s in
  let reads := List.filter is_read (new_calls s (snd r)) in
  (size = 1 ->
   reads = [i2c_master_read_byte cmd pData I2C_MASTER_LAST_NACK]) /\
  (1 < size ->
   reads = [i2c_master_read cmd pData (size - 1) I2C_MASTER_ACK;
            i2c_master_read_byte cmd (pData + size - 1)
              I2C_MASTER_LAST_NACK]) /\
  (size = 0 -> reads = []) /\
  (exists before,
     List.filter is_read before = [] /\
     new_calls s (snd r) =
     before ++ reads ++
     [i2c_master_stop cmd; i2c_master_cmd_begin handle cmd 0;
      i2c_cmd_link_delete cmd]) /\
  fst r = size.
Proof.
  intros Hok Hsize cmd r reads. subst reads r cmd.
  assert (Hret : to_int32 size = size)
    by (apply to_int32_small; unfold INT32_MAX in Hsize; lia).
  m_unfold.
  destruct (address >? 127);
    (destruct (Z.gtb_spec size 1) as [H1 | H1];
     [| destruct (Z.gtb_spec size 0) as [H0 | H0]]);
    m_accept Hok; m_new_calls; cbn [List.filter is_read app];
    repeat split;
    try exact Hret;
    try (intros; subst; first [lia | reflexivity | repeat f_equal; lia]);
    match goal with
    | |- exists before, _ /\ ?l = before ++ ?rest =>
        exists (take (length l - length rest)%nat l);
        split; reflexivity
    end.
Qed.

Lemma receive_read_phase_witness :
  List.filter is_read
    (new_calls s_open0
       (snd (run (receive 0 66 200 3) (drv_accepting 7 19) s_open0))) =
  [i2c_master_read 7 200 2 I2C_MASTER_ACK;
   i2c_master_read_byte 7 202 I2C_MASTER_LAST_NACK] /\
  fst (run (receive 0 66 200 3) (drv_accepting 7 19) s_open0) = 3.
Proof.
  destruct (receive_read_phase (drv_accepting 7 19) s_open0 0 66 200 3
              (fun _ _ => eq_refl)
              ltac:(vm_compute; split; discriminate))
    as [_ [Hmany [_ [_ Hret]]]].
  split; [exact (Hmany eq_refl) | exact Hret].
Defined.

(** Whatever the driver answers, [receive] never issues a read beyond those:
    none for zero bytes, no multi-byte read for one byte, and for more the
    one-byte read only after the multi-byte read. *)
Lemma receive_reads_any_driver (d : Driver) (s : State)
    (handle address pData size : Z) :
  let cmd := drv_handle d (calls s) in
  let reads :=
    List.filter is_read
      (new_calls s (snd (run (receive handle address pData size) d s))) in
  (size <= 0 -> reads = []) /\
  (size = 1 ->
   reads = [] \/
   reads = [i2c_master_read_byte cmd pData I2C_MASTER_LAST_NACK]) /\
  (1 < size ->
   reads = [] \/
   reads = [i2c_master_read cmd pData (size - 1) I2C_MASTER_ACK] \/
   reads = [i2c_master_read cmd pData (size - 1) I2C_MASTER_ACK;
            i2c_master_read_byte cmd (pData + size - 1)
              I2C_MASTER_LAST_NACK]).
Proof.
  intros cmd reads. subst reads cmd. m_unfold.
  destruct (address >? 127);
    (destruct (Z.gtb_spec size 1) as [H1 | H1];
     [| destruct (Z.gtb_spec size 0) as [H0 | H0]]);
    m_cases d; m_new_calls; cbn [List.filter is_read app];
    repeat split; intros; subst; try lia; auto;
    replace (pData + 1 - 1) with pData by lia; auto.
Qed.

(** [send] answers success or the Platform error, nothing else. *)
Lemma send_result_kind (d : Driver) (s : State) (handle address : Z)
    (pData : option Z) (size : Z) (noStop : bool) :
  fst (run (send handle address pData size noStop) d s) =
    U_ERROR_COMMON_SUCCESS \/
  fst (run (send handle address pData size noStop) d s) =
    U_ERROR_COMMON_PLATFORM.
Proof.
  m_unfold.
  destruct (address >? 127), pData, noStop; cbn [is_null default];
    m_cases d; auto.
Qed.

(** Once the start primitive has been accepted, [send] and [receive] release
    the command link on every path. *)
Lemma send_link_released (d : Driver) (s : State) (handle address : Z)
    (pData : option Z) (size : Z) (noStop : bool) :
  drv_result d (calls s ++ [i2c_cmd_link_create])
    (i2c_master_start (drv_handle d (calls s))) = ESP_OK ->
  links_outstanding
    (new_calls s (snd (run (send handle address pData size noStop) d s))) = 0.
Proof.
  intros Hstart. m_unfold. m_reduce. m_calls. rewrite Hstart.
  destruct (address >? 127), pData, noStop; cbn [is_null default];
    m_cases d; m_new_calls; reflexivity.
Qed.

Lemma receive_link_released (d : Driver) (s : State)
    (handle address pData size : Z) :
  drv_result d (calls s ++ [i2c_cmd_link_create])
    (i2c_master_start (drv_handle d (calls s))) = ESP_OK ->
  links_outstanding
    (new_calls s (snd (run (receive handle address pData size) d s))) = 0.
Proof.
  intros Hstart. m_unfold. m_reduce. m_calls. rewrite Hstart.
  destruct (address >? 127), (size >? 1), (size >? 0);
    m_cases d; m_new_calls; reflexivity.
Qed.

(** When the start primitive is refused, the link stays allocated. *)
Lemma send_link_kept (d : Driver) (s : State) (handle address : Z)
    (pData : option Z) (size : Z) (noStop : bool) :
  drv_result d (calls s ++ [i2c_cmd_link_create])
    (i2c_master_start (drv_handle d (calls s))) <> ESP_OK ->
  run (send handle address pData size noStop) d s =
  (U_ERROR_COMMON_PLATFORM,
   record_call (i2c_master_start (drv_handle d (calls s)))
     (record_call i2c_cmd_link_create s)).
Proof.
  intros Hstart. apply Z.eqb_neq in Hstart.
  m_unfold. m_reduce. m_calls. rewrite Hstart. reflexivity.
Qed.

Definition drv_no_start : Driver :=
  drv_refusing
    (fun c => match c with i2c_master_start _ => true | _ => false end) 7 19.

Definition drv_no_stop : Driver := drv_refusing is_stop 7 19.

(** C5. The claim reads: in [send] and [receive] the command link obtained
    from [i2c_cmd_link_create] is released by [i2c_cmd_link_delete] on every
    exit path, those where a primitive fails included, and any failing
    primitive yields the Platform error. Two runs of the code say otherwise.
    With a driver that refuses the start primitive, [send] returns Platform
    having made two calls, the creation of the link and the start: the link
    is still allocated. With a driver that refuses the stop primitive,
    [receive] of zero bytes releases the link but returns
    [U_ERROR_COMMON_SUCCESS]. *)
Theorem transfer_engine_exit_paths :
  run (send 0 66 (Some 100) 2 false) drv_no_start s_open0 =
    (U_ERROR_COMMON_PLATFORM,
     record_call (i2c_master_start 7) (record_call i2c_cmd_link_create s_open0))
  /\
  links_outstanding
    (new_calls s_open0
       (snd (run (send 0 66 (Some 100) 2 false) drv_no_start s_open0))) = 1 /\
  links_outstanding
    (new_calls s_open0
       (snd (run (receive 0 66 200 2) drv_no_start s_open0))) = 1 /\
  fst (run (receive 0 66 200 0) drv_no_stop s_open0) = U_ERROR_COMMON_SUCCESS /\
  new_calls s_open0 (snd (run (receive 0 66 200 0) drv_no_stop s_open0)) =
    [i2c_cmd_link_create; i2c_master_start 7;
     i2c_master_write_byte 7 133 true; i2c_master_stop 7;
     i2c_cmd_link_delete 7] /\
  fst (run (receive 0 66 200 2) drv_no_stop s_open0) = U_ERROR_COMMON_SUCCESS.
Proof. repeat split; vm_compute; reflexivity. Qed.

(** *** Send followed by receive *)

(** The calls of the first transaction: up to the first release of a link. *)
Fixpoint first_transaction (cs : list DrvCall) : list DrvCall :=
  match cs with
  | [] => []
  | c :: cs' =>
      c :: match c with
           | i2c_cmd_link_delete _ => []
           | _ => first_transaction cs'
           end
  end.

(** "the send half is performed without a trailing stop condition". *)
Definition without_stop (cs : list DrvCall) : Prop :=
  Forall (fun c => is_stop c = false) cs.

(** The claim of C4 as it is worded does not hold: sending two bytes to and
    receiving three from address 66 on the open block 0, with a driver that
    accepts everything, the send half contains a stop. *)
Lemma sendReceive_send_half_has_stop :
  ~ without_stop
      (first_transaction
         (new_calls s_open0
            (snd (run (uPortI2cControllerSendReceive 0 66 (Some 100) 2
                         (Some 200) 3)
                    (drv_accepting 7 19) s_open0)))).
Proof.
  unfold without_stop. rewrite Forall_forall. intros Hall.
  specialize (Hall (i2c_master_stop 7)).
  assert (Hin : In (i2c_master_stop 7)
                  (first_transaction
                     (new_calls s_open0
                        (snd (run (uPortI2cControllerSendReceive 0 66
                                     (Some 100) 2 (Some 200) 3)
                                (drv_accepting 7 19) s_open0))))).
  { vm_compute. auto 10. }
  apply list_elem_of_In in Hin. apply Hall in Hin. discriminate Hin.
Qed.

Definition is_delete (c : DrvCall) : bool :=
  match c with i2c_cmd_link_delete _ => true | _ => false end.

Lemma first_transaction_app (before rest : list DrvCall) (cmd : Z) :
  Forall (fun c => is_delete c = false) before ->
  first_transaction (before ++ i2c_cmd_link_delete cmd :: rest) =
  before ++ [i2c_cmd_link_delete cmd].
Proof.
  induction 1 as [| c before Hc _ IH]; [reflexivity |].
  simpl. rewrite IH. destruct c; try reflexivity. discriminate Hc.
Qed.

(** A [send] with data and without [noStop] that succeeds has written the
    data, then stopped, executed and released the link, in that order. *)
Lemma send_success_calls (d : Driver) (s : State)
    (handle address pData size : Z) :
  fst (run (send handle address (Some pData) size false) d s) =
    U_ERROR_COMMON_SUCCESS ->
  let cmd := drv_handle d (calls s) in
  exists before,
    Forall (fun c => is_delete c = false) before /\
    calls (snd (run (send handle address (Some pData) size false) d s)) =
    calls s ++ before ++
    [i2c_master_write cmd pData size true; i2c_master_stop cmd;
     i2c_master_cmd_begin handle cmd 0; i2c_cmd_link_delete cmd].
Proof.
  intros Hret cmd. subst cmd. revert Hret. m_unfold. cbn [is_null default].
  destruct (address >? 127); m_cases d; intros Hret;
    try discriminate Hret; rewrite <- ?app_assoc; cbn [app];
    match goal with
    | |- exists before, _ /\ calls s ++ ?l = _ =>
        exists (take (length l - 4)%nat l)
    end;
    (split; [repeat constructor | reflexivity]).
Qed.

(** [receive] begins by creating a link of its own. *)
Lemma receive_calls (d : Driver) (s : State) (handle address pData size : Z) :
  exists after,
    calls (snd (run (receive handle address pData size) d s)) =
    calls s ++ i2c_cmd_link_create :: after.
Proof.
  m_unfold.
  destruct (address >? 127), (size >? 1), (size >? 0); m_cases d;
    rewrite <- ?app_assoc; cbn [app]; eexists; reflexivity.
Qed.

(** C4, as the code has it. [uPortI2cControllerSendReceive] calls [send] with
    [noStop] false: whenever a call with both buffers on an open handle does
    not end in an error, the send half wrote the data, then issued the stop
    condition, executed and released its link, and the receive half began
    afterwards with a link of its own. *)
Theorem sendReceive_send_half_stops (d : Driver) (s : State)
    (handle address pSend bytesToSend pReceive bytesToReceive : Z) :
  gMutex s = true ->
  0 <= handle < U_PORT_I2C_MAX_NUM ->
  0 < clockHertz (data_at s handle) ->
  0 <= fst (run (uPortI2cControllerSendReceive handle address
                   (Some pSend) bytesToSend (Some pReceive) bytesToReceive)
              d s) ->
  let cmd := drv_handle d (calls s) in
  let cs :=
    new_calls s
      (snd (run (uPortI2cControllerSendReceive handle address
                   (Some pSend) bytesToSend (Some pReceive) bytesToReceive)
              d s)) in
  exists before after,
    cs = before ++
         [i2c_master_write cmd pSend bytesToSend true; i2c_master_stop cmd;
          i2c_master_cmd_begin handle cmd 0; i2c_cmd_link_delete cmd] ++
         i2c_cmd_link_create :: after /\
    first_transaction cs =
      before ++
      [i2c_master_write cmd pSend bytesToSend true; i2c_master_stop cmd;
       i2c_master_cmd_begin handle cmd 0; i2c_cmd_link_delete cmd].
Proof.
  intros Hm Hr Hopen Hret cmd cs. subst cs cmd. revert Hret.
  assert (Hgt : (clockHertz (data_at s handle) >? 0) = true)
    by (apply Z.gtb_lt; lia).
  pose proof (in_range_inside _ Hr) as Hin.
  pose proof (send_result_kind d s handle address (Some pSend) bytesToSend
                false) as Hkind.
  pose proof (send_success_calls d s handle address pSend bytesToSend)
    as Hsend.
  unfold run in *.
  unfold uPortI2cControllerSendReceive, bind, get, ret.
  m_reduce. rewrite Hm, Hin, Hgt. cbn [is_null default negb orb andb].
  destruct (send handle address (Some pSend) bytesToSend false d s)
    as [e s1].
  cbn [fst snd] in Hkind, Hsend.
  destruct Hkind as [-> | ->]; m_norm; unfold id.
  - intros _. destruct (Hsend eq_refl) as [before [Hbefore Hcalls]].
    destruct (receive_calls d s1 handle address pReceive bytesToReceive)
      as [after Hafter].
    unfold run in Hafter. exists before, after.
    assert (Hnew :
      new_calls s (snd (receive handle address pReceive bytesToReceive d s1)) =
      before ++
      [i2c_master_write (drv_handle d (calls s)) pSend bytesToSend true;
       i2c_master_stop (drv_handle d (calls s));
       i2c_master_cmd_begin handle (drv_handle d (calls s)) 0;
       i2c_cmd_link_delete (drv_handle d (calls s))] ++
      i2c_cmd_link_create :: after).
    { apply new_calls_app. rewrite Hafter, Hcalls.
      rewrite <- !app_assoc. reflexivity. }
    split; [exact Hnew |].
    rewrite Hnew.
    change (before ++
            [i2c_master_write (drv_handle d (calls s)) pSend bytesToSend true;
             i2c_master_stop (drv_handle d (calls s));
             i2c_master_cmd_begin handle (drv_handle d (calls s)) 0;
             i2c_cmd_link_delete (drv_handle d (calls s))] ++
            i2c_cmd_link_create :: after)
      with (before ++
            [i2c_master_write (drv_handle d (calls s)) pSend bytesToSend true;
             i2c_master_stop (drv_handle d (calls s));
             i2c_master_cmd_begin handle (drv_handle d (calls s)) 0] ++
            i2c_cmd_link_delete (drv_handle d (calls s)) ::
            i2c_cmd_link_create :: after).
    rewrite app_assoc, first_transaction_app.
    + rewrite <- app_assoc. reflexivity.
    + apply Forall_app. split; [exact Hbefore | repeat constructor].
  - intros Hret. exfalso. unfold U_ERROR_COMMON_PLATFORM in Hret. lia.
Qed.

Lemma sendReceive_send_half_stops_witness :
  exists before after,
    new_calls s_open0
      (snd (run (uPortI2cControllerSendReceive 0 66 (Some 100) 2 (Some 200) 3)
              (drv_accepting 7 19) s_open0)) =
    before ++
    [i2c_master_write 7 100 2 true; i2c_master_stop 7;
     i2c_master_cmd_begin 0 7 0; i2c_cmd_link_delete 7] ++
    i2c_cmd_link_create :: after /\
    first_transaction
      (new_calls s_open0
         (snd (run (uPortI2cControllerSendReceive 0 66 (Some 100) 2
                      (Some 200) 3)
                 (drv_accepting 7 19) s_open0))) =
    before ++
    [i2c_master_write 7 100 2 true; i2c_master_stop 7;
     i2c_master_cmd_begin 0 7 0; i2c_cmd_link_delete 7].
Proof.
  apply (sendReceive_send_half_stops (drv_accepting 7 19) s_open0
           0 66 100 2 200 3);
    first [reflexivity | vm_compute; split; [discriminate | reflexivity]
          | vm_compute; discriminate].
Defined.

(** ** Adopted instances *)

Section Adopted.

Variables (d : Driver) (s : State) (handle : Z).

Hypothesis initialised : gMutex s = true.
Hypothesis valid : 0 <= handle < U_PORT_I2C_MAX_NUM.
Hypothesis is_open : 0 < clockHertz (data_at s handle).
Hypothesis is_adopted : adopted (data_at s handle) = true.

Let Hgt : (clockHertz (data_at s handle) >? 0) = true.
Proof. apply Z.gtb_lt. lia. Qed.

Ltac adopted_run :=
  unfold run, bind, get, ret; m_reduce;
  rewrite initialised, (in_range_inside _ valid), Hgt, ?is_adopted;
  m_reduce.

(** Setting the clock, reading it and closing with bus recovery answer
    NotSupported and leave everything, the record of driver calls
    included, as it was. *)
Lemma uPortI2cSetClock_adopted (hz : Z) :
  0 < hz ->
  run (uPortI2cSetClock handle hz) d s = (U_ERROR_COMMON_NOT_SUPPORTED, s).
Proof.
  intros Hhz. apply Z.gtb_lt in Hhz.
  unfold uPortI2cSetClock. adopted_run. rewrite Hhz. reflexivity.
Qed.

Lemma uPortI2cGetClock_adopted :
  run (uPortI2cGetClock handle) d s = (U_ERROR_COMMON_NOT_SUPPORTED, s).
Proof. unfold uPortI2cGetClock. adopted_run. reflexivity. Qed.

Lemma uPortI2cCloseRecoverBus_adopted :
  run (uPortI2cCloseRecoverBus handle) d s =
  (U_ERROR_COMMON_NOT_SUPPORTED, s).
Proof. unfold uPortI2cCloseRecoverBus. adopted_run. reflexivity. Qed.

(** Setting the timeout makes no driver call either, but what it answers
    is InvalidParameter. *)
Lemma uPortI2cSetTimeout_adopted (timeoutMs : Z) :
  0 < timeoutMs ->
  run (uPortI2cSetTimeout handle timeoutMs) d s =
  (U_ERROR_COMMON_INVALID_PARAMETER, s).
Proof.
  intros Hms. apply Z.gtb_lt in Hms.
  unfold uPortI2cSetTimeout. adopted_run. rewrite Hms. reflexivity.
Qed.

(** Reading the timeout does not look at [adopted]: it asks the driver. *)
Lemma uPortI2cGetTimeout_adopted :
  run (uPortI2cGetTimeout handle) d s =
  ((if drv_result d (calls s) (i2c_get_timeout handle) =? ESP_OK
    then timeoutEsp32ToMs U_PORT_I2C_CLOCK_PERIOD_NS
           (drv_timeout d (calls s) handle)
    else Some U_ERROR_COMMON_PLATFORM),
   record_call (i2c_get_timeout handle) s).
Proof.
  unfold uPortI2cGetTimeout, call_get_timeout. adopted_run.
  destruct (drv_result d (calls s) (i2c_get_timeout handle) =? ESP_OK);
    reflexivity.
Qed.

End Adopted.

(** [uPortI2cSetTimeout] has no path that answers NotSupported. *)
Lemma uPortI2cSetTimeout_never_not_supported (d : Driver) (s : State)
    (handle timeoutMs : Z) :
  fst (run (uPortI2cSetTimeout handle timeoutMs) d s) <>
  U_ERROR_COMMON_NOT_SUPPORTED.
Proof.
  unfold uPortI2cSetTimeout, esp_ok, call, run, bind, get, ret. m_reduce.
  destruct (gMutex s); [| discriminate].
  destruct (in_range handle && (clockHertz (data_at s handle) >? 0) &&
            (timeoutMs >? 0)); [| discriminate].
  destruct (adopted (data_at s handle)); m_reduce; [discriminate |].
  match goal with
  | |- context [drv_result d ?h ?c =? ESP_OK] =>
      destruct (drv_result d h c =? ESP_OK)
  end; discriminate.
Qed.

(** C2. The claim reads: on an open handle whose slot is adopted, each of
    set clock, get clock, set timeout, get timeout and close with bus
    recovery returns NotSupported and makes no driver call. With block 1
    adopted, [uPortI2cSetTimeout] returns InvalidParameter, which is not
    NotSupported, and [uPortI2cGetTimeout] calls [i2c_get_timeout] and
    returns the timeout the driver reports (register value 19, 13 ms). *)
Theorem adopted_timeout_not_refused :
  gMutex s_adopt1 = true /\
  0 < clockHertz (data_at s_adopt1 1) /\
  adopted (data_at s_adopt1 1) = true /\
  run (uPortI2cSetTimeout 1 10) (drv_accepting 7 19) s_adopt1 =
    (U_ERROR_COMMON_INVALID_PARAMETER, s_adopt1) /\
  U_ERROR_COMMON_INVALID_PARAMETER <> U_ERROR_COMMON_NOT_SUPPORTED /\
  fst (run (uPortI2cGetTimeout 1) (drv_accepting 7 19) s_adopt1) = Some 13 /\
  new_calls s_adopt1
    (snd (run (uPortI2cGetTimeout 1) (drv_accepting 7 19) s_adopt1)) =
    [i2c_get_timeout 1].
Proof. repeat split; try discriminate; vm_compute; reflexivity. Qed.

(** * Further properties of the file *)

(** ** The conversions, as the code computes them *)

(** The first hit of a search along an ascending range is the least one. *)
Lemma find_seqZ_least (f : Z -> bool) (n : nat) (lo k : Z) :
  find f (seqZ lo (Z.of_nat n)) = Some k ->
  lo <= k < lo + Z.of_nat n /\ f k = true /\
  forall x, lo <= x < k -> f x = false.
Proof.
  revert lo. induction n as [| n IH]; intros lo Hfind; [discriminate |].
  rewrite seqZ_cons in Hfind by lia. simpl in Hfind.
  destruct (f lo) eqn:Hlo.
  - injection Hfind as <-. repeat split; try lia. exact Hlo.
  - replace (Z.pred (Z.of_nat (S n))) with (Z.of_nat n) in Hfind by lia.
    apply IH in Hfind as [Hk [Hfk Hleast]].
    repeat split; try lia; [exact Hfk |].
    intros x Hx. destruct (Z.eq_dec x lo) as [-> | Hne]; [exact Hlo |].
    apply Hleast. lia.
Qed.

(** What [timeoutMsToEsp32] returns: the least register value from 0 to 21
    whose timeout in whole milliseconds reaches the request, or -1 when not
    even register value 21 reaches it. *)
Theorem timeoutMsToEsp32_least (period_ns ms : Z) :
  0 < period_ns <= 1023 ->
  let r := timeoutMsToEsp32 period_ns ms in
  (r = -1 /\ forall x, 0 <= x <= 21 -> register_ms period_ns x < ms) \/
  (0 <= r <= 21 /\ ms <= register_ms period_ns r /\
   forall x, 0 <= x < r -> register_ms period_ns x < ms).
Proof.
  intros Hp r. subst r. rewrite timeoutMsToEsp32_smallest by exact Hp.
  unfold smallest_register.
  destruct (find (fun x => ms <=? register_ms period_ns x) (seqZ 0 (21 + 1)))
    as [k |] eqn:Hfind.
  - right. change (21 + 1) with (Z.of_nat 22) in Hfind.
    apply find_seqZ_least in Hfind as [Hk [Hfk Hleast]].
    apply Z.leb_le in Hfk. repeat split; try lia.
    intros x Hx. specialize (Hleast x ltac:(lia)).
    apply Z.leb_gt in Hleast. exact Hleast.
  - left. split; [reflexivity |]. intros x Hx.
    assert (Hf : (ms <=? register_ms period_ns x) = false).
    { apply (find_none _ _ Hfind x).
      apply list_elem_of_In, elem_of_seqZ. lia. }
    apply Z.leb_gt in Hf. exact Hf.
Qed.

Lemma timeoutMsToEsp32_least_witness :
  0 <= timeoutMsToEsp32 25 10 <= 21 /\
  10 <= register_ms 25 (timeoutMsToEsp32 25 10).
Proof.
  destruct (timeoutMsToEsp32_least 25 10 ltac:(lia)) as [[Hr _] | [Hr [Hms _]]].
  - vm_compute in Hr. discriminate Hr.
  - split; [exact Hr | exact Hms].
Defined.

(** A longer request never gets a smaller register value: as long as the
    longer one is served at all, the answers are ordered like the requests. *)
Theorem timeoutMsToEsp32_monotone (period_ns ms ms' : Z) :
  0 < period_ns <= 1023 ->
  ms <= ms' ->
  0 <= timeoutMsToEsp32 period_ns ms' ->
  0 <= timeoutMsToEsp32 period_ns ms <= timeoutMsToEsp32 period_ns ms'.
Proof.
  intros Hp Hle Hserved.
  pose proof (timeoutMsToEsp32_least period_ns ms Hp) as H.
  pose proof (timeoutMsToEsp32_least period_ns ms' Hp) as H'.
  cbv zeta in H, H'.
  destruct H' as [[Hr' _] | [Hr' [Hms' _]]]; [lia |].
  destruct H as [[_ Hnone] | [Hr [_ Hleast]]].
  - specialize (Hnone _ Hr'). lia.
  - split; [lia |].
    destruct (Z_le_gt_dec (timeoutMsToEsp32 period_ns ms)
                (timeoutMsToEsp32 period_ns ms')) as [Hok | Hgt];
      [exact Hok |].
    specialize (Hleast (timeoutMsToEsp32 period_ns ms') ltac:(lia)). lia.
Qed.

Lemma timeoutMsToEsp32_monotone_witness :
  0 <= timeoutMsToEsp32 25 3 <= timeoutMsToEsp32 25 40.
Proof.
  apply (timeoutMsToEsp32_monotone 25 3 40); [lia | lia |].
  vm_compute. discriminate.
Defined.

(** [timeoutEsp32ToMs] is defined exactly for the shift counts 0 to 31, and
    then yields between 0 and 4294 ms whatever the clock period: a converted
    timeout is never negative, so it cannot be taken for an error code. *)
Theorem timeoutEsp32ToMs_range (period_ns timeoutEsp32 : Z) :
  (0 <= timeoutEsp32 < 32 ->
   exists ms, timeoutEsp32ToMs period_ns timeoutEsp32 = Some ms /\
              0 <= ms <= 4294) /\
  (timeoutEsp32 < 0 \/ 32 <= timeoutEsp32 ->
   timeoutEsp32ToMs period_ns timeoutEsp32 = None).
Proof.
  unfold timeoutEsp32ToMs, shift_defined. split.
  - intros Ht.
    replace (0 <=? timeoutEsp32) with true by (symmetry; apply Z.leb_le; lia).
    replace (timeoutEsp32 <? 32) with true by (symmetry; apply Z.ltb_lt; lia).
    simpl. eexists. split; [reflexivity |].
    unfold periods_to_ms.
    set (z := ulong_shl1 timeoutEsp32 * period_ns).
    assert (Hu : 0 <= to_uint32 z < 2 ^ 32)
      by (unfold to_uint32; apply Z.mod_pos_bound; lia).
    assert (Hq : 0 <= to_uint32 z / 1000000 <= 4294).
    { split; [apply Z.div_pos; lia |].
      apply Z.lt_succ_r, Z.div_lt_upper_bound; lia. }
    rewrite to_int32_small; lia.
  - intros [Hneg | Hbig].
    + replace (0 <=? timeoutEsp32) with false
        by (symmetry; apply Z.leb_gt; lia).
      reflexivity.
    + replace (timeoutEsp32 <? 32) with false
        by (symmetry; apply Z.ltb_ge; lia).
      rewrite andb_false_r. reflexivity.
Qed.

(** For the register values the hardware has, 0 to 22, the conversion back
    to milliseconds is exact: no step of it wraps around. *)
Theorem timeoutEsp32ToMs_exact (period_ns timeoutEsp32 : Z) :
  0 < period_ns <= 1023 ->
  0 <= timeoutEsp32 <= U_PORT_I2C_ESP32X3_TIMEOUT_REGISTER_MAX ->
  timeoutEsp32ToMs period_ns timeoutEsp32 =
  Some (2 ^ timeoutEsp32 * period_ns / 1000000).
Proof.
  intros Hp Ht. unfold U_PORT_I2C_ESP32X3_TIMEOUT_REGISTER_MAX in Ht.
  unfold timeoutEsp32ToMs, shift_defined.
  replace (0 <=? timeoutEsp32) with true by (symmetry; apply Z.leb_le; lia).
  replace (timeoutEsp32 <? 32) with true by (symmetry; apply Z.ltb_lt; lia).
  simpl. rewrite periods_to_ms_register by assumption. reflexivity.
Qed.

Lemma timeoutEsp32ToMs_exact_witness :
  timeoutEsp32ToMs 57 22 = Some (2 ^ 22 * 57 / 1000000).
Proof.
  apply (timeoutEsp32ToMs_exact 57 22); [lia |].
  vm_compute. split; discriminate.
Defined.

Lemma timeoutEsp32ToMs_range_witness :
  exists ms, timeoutEsp32ToMs 25 31 = Some ms /\ 0 <= ms <= 4294.
Proof.
  apply (timeoutEsp32ToMs_range 25 31). vm_compute. split; [discriminate | reflexivity].
Defined.

(** ** Functions that leave the table alone *)

(** The mutex flag, the table and the counter are the same in both states. *)
Definition same_globals (s s' : State) : Prop :=
  gMutex s' = gMutex s /\ gI2cData s' = gI2cData s /\
  gResourceAllocCount s' = gResourceAllocCount s.

Lemma same_globals_refl (s : State) : same_globals s s.
Proof. repeat split. Qed.

Lemma same_globals_trans (s1 s2 s3 : State) :
  same_globals s1 s2 -> same_globals s2 s3 -> same_globals s1 s3.
Proof.
  unfold same_globals. intros [H1 [H2 H3]] [H4 [H5 H6]].
  repeat split; congruence.
Qed.

Lemma send_same_globals (d : Driver) (s : State) (handle address : Z)
    (pData : option Z) (size : Z) (noStop : bool) :
  same_globals s (snd (run (send handle address pData size noStop) d s)).
Proof.
  m_unfold.
  destruct (address >? 127), pData, noStop; cbn [is_null default];
    m_cases d; repeat split.
Qed.

Lemma receive_same_globals (d : Driver) (s : State)
    (handle address pData size : Z) :
  same_globals s (snd (run (receive handle address pData size) d s)).
Proof.
  m_unfold.
  destruct (address >? 127), (size >? 1), (size >? 0);
    m_cases d; repeat split.
Qed.

(** Transfers, the timeout functions, reading the clock and reading the
    counter never change the mutex, a slot or the counter, whatever the
    arguments and whatever the driver answers. *)
Theorem queries_and_transfers_same_globals (d : Driver) (s : State)
    (handle address timeoutMs bytesToSend bytesToReceive : Z)
    (pSend pReceive : option Z) (noStop : bool) :
  same_globals s
    (snd (run (uPortI2cControllerSendReceive handle address pSend bytesToSend
                 pReceive bytesToReceive) d s)) /\
  same_globals s
    (snd (run (uPortI2cControllerSend handle address pSend bytesToSend noStop)
            d s)) /\
  same_globals s (snd (run (uPortI2cSetTimeout handle timeoutMs) d s)) /\
  same_globals s (snd (run (uPortI2cGetTimeout handle) d s)) /\
  same_globals s (snd (run (uPortI2cGetClock handle) d s)) /\
  same_globals s (snd (run uPortI2cResourceAllocCount d s)).
Proof.
  repeat split_and.
  - unfold uPortI2cControllerSendReceive, run, bind, get, ret. m_reduce.
    destruct (gMutex s); [| apply same_globals_refl].
    destruct (in_range handle && (clockHertz (data_at s handle) >? 0) &&
              (negb (is_null pSend) || (bytesToSend =? 0)) &&
              (negb (is_null pReceive) || (bytesToReceive =? 0)));
      [| apply same_globals_refl].
    pose proof (send_same_globals d s handle address pSend bytesToSend false)
      as Hsend. unfold run in Hsend.
    destruct (negb (is_null pSend)).
    + destruct (send handle address pSend bytesToSend false d s) as [e s1].
      cbn [snd] in Hsend.
      destruct ((e =? U_ERROR_COMMON_SUCCESS) && negb (is_null pReceive));
        [| exact Hsend].
      eapply same_globals_trans; [exact Hsend |].
      apply receive_same_globals.
    + m_reduce.
      destruct ((U_ERROR_COMMON_SUCCESS =? U_ERROR_COMMON_SUCCESS) &&
                negb (is_null pReceive)); [| apply same_globals_refl].
      apply receive_same_globals.
  - unfold uPortI2cControllerSend, run, bind, get, ret. m_reduce.
    destruct (gMutex s); [| apply same_globals_refl].
    destruct (in_range handle && (clockHertz (data_at s handle) >? 0) &&
              (negb (is_null pSend) || (bytesToSend =? 0)));
      [| apply same_globals_refl].
    apply send_same_globals.
  - unfold uPortI2cSetTimeout, esp_ok, call, run, bind, get, ret. m_reduce.
    destruct (gMutex s); [| apply same_globals_refl].
    destruct (in_range handle && (clockHertz (data_at s handle) >? 0) &&
              (timeoutMs >? 0)); [| apply same_globals_refl].
    destruct (negb (adopted (data_at s handle))); m_reduce;
      repeat split.
  - unfold uPortI2cGetTimeout, call_get_timeout, run, bind, get, ret.
    m_reduce.
    destruct (gMutex s); [| apply same_globals_refl].
    destruct (in_range handle && (clockHertz (data_at s handle) >? 0));
      [| apply same_globals_refl].
    m_reduce.
    destruct (drv_result d (calls s) (i2c_get_timeout handle) =? ESP_OK);
      repeat split.
  - unfold uPortI2cGetClock, run, bind, get, ret. m_reduce.
    destruct (gMutex s); [| apply same_globals_refl].
    destruct (in_range handle && (clockHertz (data_at s handle) >? 0));
      [| apply same_globals_refl].
    destruct (negb (adopted (data_at s handle))); apply same_globals_refl.
  - apply same_globals_refl.
Qed.

(** ** The table and the counter *)

(** The table has its [U_PORT_I2C_MAX_NUM] entries, the counter equals the
    number of open slots, and nothing is open while the mutex is absent. *)
Definition table_counted (s : State) : Prop :=
  length (gI2cData s) = Z.to_nat U_PORT_I2C_MAX_NUM /\
  gResourceAllocCount s = open_slots s /\
  (gMutex s = false -> open_slots s = 0).

Lemma table_counted_same_globals (s s' : State) :
  same_globals s s' -> table_counted s -> table_counted s'.
Proof.
  unfold same_globals, table_counted, open_slots.
  intros [Hm [Ht Hc]]. rewrite Hm, Ht, Hc. trivial.
Qed.

(** How the number of open slots moves when one entry is overwritten. *)
Lemma open_slots_insert (l : list uPortI2cData_t) (i : nat)
    (d0 d1 : uPortI2cData_t) :
  l !! i = Some d0 ->
  Z.of_nat (length (List.filter (fun d => 0 <? clockHertz d) (<[i := d1]> l))) =
  Z.of_nat (length (List.filter (fun d => 0 <? clockHertz d) l))
  - (if 0 <? clockHertz d0 then 1 else 0)
  + (if 0 <? clockHertz d1 then 1 else 0).
Proof.
  revert i. induction l as [| a l IH]; intros i Hl.
  - destruct i; discriminate.
  - destruct i as [| i]; simpl in *.
    + injection Hl as ->.
      destruct (0 <? clockHertz d0), (0 <? clockHertz d1); simpl; lia.
    + specialize (IH i Hl).
      destruct (0 <? clockHertz a); simpl; lia.
Qed.

Lemma open_slots_bounds (s : State) :
  0 <= open_slots s <= Z.of_nat (length (gI2cData s)).
Proof.
  unfold open_slots. split; [lia |].
  apply inj_le. induction (gI2cData s) as [| a l IH]; simpl; [lia |].
  destruct (0 <? clockHertz a); simpl; lia.
Qed.

(** A slot whose clock is not zero is a slot of the table. *)
Lemma live_slot_lookup (s : State) (i : Z) :
  clockHertz (data_at s i) <> 0 ->
  gI2cData s !! Z.to_nat i = Some (data_at s i).
Proof.
  unfold data_at. destruct (gI2cData s !! Z.to_nat i) as [d0 |]; simpl.
  - reflexivity.
  - intros H. contradiction H. reflexivity.
Qed.

(** [closeI2c] in one piece. *)
Lemma closeI2c_run (d : Driver) (s : State) (index : Z) :
  run (closeI2c index) d s =
  (tt,
   if clockHertz (data_at s index) >? 0 then
     let s1 := if adopted (data_at s index) then s
               else record_call (i2c_driver_delete index) s in
     set_count (to_int32 (gResourceAllocCount s - 1))
       (set_clockHertz index (-1) s1)
   else s).
Proof.
  unfold run, closeI2c, U_ATOMIC_DECREMENT, modify, call, bind, get, ret.
  m_reduce.
  destruct (clockHertz (data_at s index) >? 0); [| reflexivity].
  destruct (adopted (data_at s index)); reflexivity.
Qed.

Lemma closeI2c_table_counted (d : Driver) (s : State) (index : Z) :
  length (gI2cData s) = Z.to_nat U_PORT_I2C_MAX_NUM ->
  gResourceAllocCount s = open_slots s ->
  let s' := snd (run (closeI2c index) d s) in
  length (gI2cData s') = Z.to_nat U_PORT_I2C_MAX_NUM /\
  gResourceAllocCount s' = open_slots s' /\
  gMutex s' = gMutex s /\
  open_slots s' <= open_slots s /\
  ~ 0 < clockHertz (data_at s' index) /\
  (forall j, ~ 0 < clockHertz (data_at s j) ->
             ~ 0 < clockHertz (data_at s' j)).
Proof.
  intros Hlen Hcount s'. subst s'. rewrite closeI2c_run. cbn [snd].
  destruct (Z.gtb_spec (clockHertz (data_at s index)) 0) as [Hopen | Hclosed].
  - pose proof (open_slot_lookup s index Hopen) as Hl.
    pose proof (open_slots_bounds s) as Hb. rewrite Hlen in Hb.
    assert (Hslots :
      open_slots
        (set_count (to_int32 (gResourceAllocCount s - 1))
           (set_clockHertz index (-1)
              (if adopted (data_at s index) then s
               else record_call (i2c_driver_delete index) s))) =
      open_slots s - 1).
    { unfold open_slots.
      destruct (adopted (data_at s index)); cbn;
        erewrite open_slots_insert by exact Hl; cbn;
        replace (0 <? clockHertz (data_at s index)) with true
          by (symmetry; apply Z.ltb_lt; lia); lia. }
    rewrite Hslots.
    assert (Hnat : Z.of_nat (Z.to_nat U_PORT_I2C_MAX_NUM) = 2) by reflexivity.
    repeat apply conj.
    + destruct (adopted (data_at s index)); cbn; rewrite length_insert;
        exact Hlen.
    + destruct (adopted (data_at s index)); cbn;
        rewrite Hcount; apply to_int32_small; lia.
    + destruct (adopted (data_at s index)); reflexivity.
    + lia.
    + destruct (adopted (data_at s index));
        unfold set_count, set_clockHertz, set_data, data_at at 1; cbn;
        (rewrite list_lookup_insert_eq by (eapply lookup_lt_Some; exact Hl));
        cbn; lia.
    + intros j Hj.
      destruct (decide (Z.to_nat index = Z.to_nat j)) as [Heq | Hne].
      * destruct (adopted (data_at s index));
          unfold set_count, set_clockHertz, set_data, data_at at 1; cbn;
          rewrite <- Heq;
          (rewrite list_lookup_insert_eq by (eapply lookup_lt_Some; exact Hl));
          cbn; lia.
      * destruct (adopted (data_at s index));
          unfold set_count, set_clockHertz, set_data, data_at at 1; cbn;
          (rewrite list_lookup_insert_ne by exact Hne); exact Hj.
  - repeat apply conj; try assumption; try lia; auto.
Qed.

(** *** Opening *)

(** The two outcomes of [openI2c]: an error, and then the mutex, the table
    and the counter are as before; or the index, and then exactly that slot
    has been written and the counter incremented. *)
Lemma openI2c_outcomes (d : Driver) (s : State) (i2c pinSda pinSdc : Z)
    (controller adopt : bool) :
  let r := run (openI2c i2c pinSda pinSdc controller adopt) d s in
  (fst r < 0 /\ same_globals s (snd r)) \/
  (fst r = i2c /\ 0 <= i2c /\
   gMutex s = true /\ controller = true /\
   clockHertz (data_at s i2c) < 0 /\
   gMutex (snd r) = gMutex s /\
   gI2cData (snd r) =
     <[Z.to_nat i2c :=
         mk_data pinSda pinSdc U_PORT_I2C_CLOCK_FREQUENCY_HERTZ adopt]>
       (gI2cData s) /\
   gResourceAllocCount (snd r) = to_int32 (gResourceAllocCount s + 1)).
Proof.
  intros r. subst r.
  unfold run, openI2c, U_ATOMIC_INCREMENT, modify, andM, orM, esp_ok, call,
    bind, get, ret.
  m_reduce.
  destruct (gMutex s) eqn:Hm;
    [| left; split; [reflexivity | apply same_globals_refl]].
  destruct (in_range i2c) eqn:Hin; cbn [andb];
    [| left; split; [reflexivity | apply same_globals_refl]].
  destruct (Z.ltb_spec (clockHertz (data_at s i2c)) 0) as [Hclosed | Hopen];
    cbn [andb];
    [| left; split; [reflexivity | apply same_globals_refl]].
  destruct controller; cbn [andb];
    [| left; split; [reflexivity | apply same_globals_refl]].
  assert (Hi : 0 <= i2c).
  { unfold in_range in Hin. apply andb_true_iff in Hin as [Hge _].
    rewrite Z.geb_leb in Hge. apply Z.leb_le in Hge. exact Hge. }
  destruct adopt; cbn [orb].
  - m_norm. right. repeat apply conj; try reflexivity; assumption.
  - destruct ((pinSda >=? 0) && (pinSdc >=? 0));
      [| left; split; [reflexivity | apply same_globals_refl]].
    m_cases d;
      first [ right; repeat apply conj; try reflexivity; assumption
            | left; split; [reflexivity | repeat split] ].
Qed.

(** Whatever the arguments and the driver's answers, [uPortI2cOpen] and
    [uPortI2cAdopt] that end in an error have changed neither the mutex nor
    a slot nor the counter: a failed open leaves the slot closed. *)
Theorem open_error_same_globals (d : Driver) (s : State)
    (i2c pinSda pinSdc : Z) (controller : bool) :
  (fst (run (uPortI2cOpen i2c pinSda pinSdc controller) d s) < 0 ->
   same_globals s (snd (run (uPortI2cOpen i2c pinSda pinSdc controller) d s)))
  /\
  (fst (run (uPortI2cAdopt i2c controller) d s) < 0 ->
   same_globals s (snd (run (uPortI2cAdopt i2c controller) d s))).
Proof.
  split; intros Herr.
  - destruct (openI2c_outcomes d s i2c pinSda pinSdc controller false)
      as [[_ Hsame] | [Hret [Hi _]]]; [exact Hsame |].
    unfold uPortI2cOpen in Herr. lia.
  - destruct (openI2c_outcomes d s i2c (-1) (-1) controller true)
      as [[_ Hsame] | [Hret [Hi _]]]; [exact Hsame |].
    unfold uPortI2cAdopt in Herr. lia.
Qed.

Lemma openI2c_table_counted (d : Driver) (s : State) (i2c pinSda pinSdc : Z)
    (controller adopt : bool) :
  table_counted s ->
  table_counted (snd (run (openI2c i2c pinSda pinSdc controller adopt) d s)).
Proof.
  intros Hinv.
  destruct (openI2c_outcomes d s i2c pinSda pinSdc controller adopt)
    as [[_ Hsame] | [_ [_ [Hm [_ [Hclosed [Hm' [Ht Hc]]]]]]]].
  - eapply table_counted_same_globals; eassumption.
  - destruct Hinv as [Hlen [Hcount _]].
    pose proof (live_slot_lookup s i2c ltac:(lia)) as Hl.
    pose proof (open_slots_bounds s) as Hb.
    assert (Hslots :
      open_slots (snd (run (openI2c i2c pinSda pinSdc controller adopt) d s))
      = open_slots s + 1).
    { unfold open_slots. rewrite Ht.
      erewrite open_slots_insert by exact Hl. cbn.
      replace (0 <? clockHertz (data_at s i2c)) with false
        by (symmetry; apply Z.ltb_ge; lia). lia. }
    assert (Hfree : open_slots s < 2).
    { (* the slot being opened is closed, so not every slot is open *)
      pose proof (open_slots_insert (gI2cData s) (Z.to_nat i2c)
                    (data_at s i2c)
                    (mk_data pinSda pinSdc U_PORT_I2C_CLOCK_FREQUENCY_HERTZ
                       adopt) Hl) as Hins.
      pose proof (open_slots_bounds
                    (snd (run (openI2c i2c pinSda pinSdc controller adopt)
                            d s))) as Hb'.
      rewrite Ht, length_insert, Hlen in Hb'.
      change (Z.of_nat (Z.to_nat U_PORT_I2C_MAX_NUM)) with 2 in Hb'. lia. }
    repeat apply conj.
    + rewrite Ht, length_insert. exact Hlen.
    + rewrite Hc, Hslots, Hcount. apply to_int32_small. lia.
    + rewrite Hm', Hm. discriminate.
Qed.

(** *** Closing, shutting down and starting up *)

Lemma none_open (s : State) :
  length (gI2cData s) = Z.to_nat U_PORT_I2C_MAX_NUM ->
  ~ 0 < clockHertz (data_at s 0) ->
  ~ 0 < clockHertz (data_at s 1) ->
  open_slots s = 0.
Proof.
  unfold open_slots, data_at. destruct (gI2cData s) as [| a [| b [| c l]]];
    try discriminate.
  intros _ Ha Hb.
  change (Z.to_nat 0) with 0%nat in Ha. change (Z.to_nat 1) with 1%nat in Hb.
  cbn in *.
  replace (0 <? clockHertz a) with false by (symmetry; apply Z.ltb_ge; lia).
  replace (0 <? clockHertz b) with false by (symmetry; apply Z.ltb_ge; lia).
  reflexivity.
Qed.

Lemma uPortI2cClose_table_counted (d : Driver) (s : State) (handle : Z) :
  table_counted s -> table_counted (snd (run (uPortI2cClose handle) d s)).
Proof.
  intros Hinv. pose proof Hinv as [Hlen [Hcount Hoff]].
  unfold uPortI2cClose, run, bind, get, ret. m_reduce.
  destruct (gMutex s) eqn:Hm; cbn [andb]; [| exact Hinv].
  destruct (in_range handle); [| exact Hinv].
  destruct (closeI2c_table_counted d s handle Hlen Hcount)
    as [Hlen' [Hcount' [Hm' _]]].
  unfold run in *. repeat apply conj; try assumption.
  rewrite Hm', Hm. discriminate.
Qed.

Lemma uPortI2cCloseRecoverBus_table_counted (d : Driver) (s : State)
    (handle : Z) :
  table_counted s ->
  table_counted (snd (run (uPortI2cCloseRecoverBus handle) d s)).
Proof.
  intros Hinv. pose proof Hinv as [Hlen [Hcount Hoff]].
  unfold uPortI2cCloseRecoverBus, run, bind, get, ret. m_reduce.
  destruct (gMutex s) eqn:Hm; [| exact Hinv].
  destruct (in_range handle && (clockHertz (data_at s handle) >? 0));
    [| exact Hinv].
  destruct (negb (adopted (data_at s handle))); [| exact Hinv].
  destruct (closeI2c_table_counted d s handle Hlen Hcount)
    as [Hlen' [Hcount' [Hm' _]]].
  unfold run in *.
  destruct (closeI2c handle d s) as [u s1]. cbn [snd] in *.
  repeat apply conj; try assumption.
  rewrite Hm', Hm. discriminate.
Qed.

(** After [uPortI2cDeinit] on a table whose counter is right, the mutex is
    gone, no slot is open and the counter is back at zero, whatever was open
    or adopted before. *)
Theorem uPortI2cDeinit_closes_all (d : Driver) (s : State) :
  table_counted s ->
  let s' := snd (run uPortI2cDeinit d s) in
  gMutex s' = false /\ open_slots s' = 0 /\ gResourceAllocCount s' = 0 /\
  table_counted s'.
Proof.
  intros [Hlen [Hcount Hoff]] s'. subst s'.
  unfold uPortI2cDeinit, run, bind, get, ret, modify. m_reduce.
  destruct (gMutex s) eqn:Hm.
  - change (seqZ 0 U_PORT_I2C_MAX_NUM) with [0; 1].
    cbn [fold_right]. unfold bind, ret. m_reduce.
    destruct (closeI2c_table_counted d s 0 Hlen Hcount)
      as [Hlen0 [Hcount0 [_ [_ [Hzero _]]]]].
    unfold run in *.
    destruct (closeI2c 0 d s) as [u0 s0]. cbn [snd] in *.
    destruct (closeI2c_table_counted d s0 1 Hlen0 Hcount0)
      as [Hlen1 [Hcount1 [_ [_ [Hone Hkeep]]]]].
    unfold run in *.
    destruct (closeI2c 1 d s0) as [u1 s1]. cbn [snd] in *.
    pose proof (none_open s1 Hlen1 (Hkeep 0 Hzero) Hone) as Hnone.
    unfold table_counted, open_slots in *. cbn.
    repeat apply conj; try assumption; try congruence; auto.
  - specialize (Hoff eq_refl). cbn [snd].
    unfold table_counted.
    repeat apply conj; try assumption; try congruence; auto.
Qed.

Lemma uPortI2cDeinit_closes_all_witness :
  gMutex (snd (run uPortI2cDeinit (drv_accepting 7 19) s_adopt1)) = false /\
  gResourceAllocCount (snd (run uPortI2cDeinit (drv_accepting 7 19) s_adopt1))
  = 0.
Proof.
  destruct (uPortI2cDeinit_closes_all (drv_accepting 7 19) s_adopt1)
    as [Hm [_ [Hc _]]].
  - repeat split. intros H. discriminate H.
  - split; [exact Hm | exact Hc].
Defined.

(** [uPortI2cInit] where the mutex exists already returns success and
    changes nothing; where creating the mutex fails it returns that error
    and changes nothing; otherwise it returns zero, the mutex exists, and
    every slot of the table is closed with its pins unset. No path makes a
    driver call. *)
Theorem uPortI2cInit_outcomes (d : Driver) (s : State) (mutexCreate : Z) :
  length (gI2cData s) = Z.to_nat U_PORT_I2C_MAX_NUM ->
  let r := run (uPortI2cInit mutexCreate) d s in
  (gMutex s = true -> r = (U_ERROR_COMMON_SUCCESS, s)) /\
  (gMutex s = false -> mutexCreate <> 0 -> r = (mutexCreate, s)) /\
  (gMutex s = false -> mutexCreate = 0 ->
   fst r = 0 /\ gMutex (snd r) = true /\ calls (snd r) = calls s /\
   gResourceAllocCount (snd r) = gResourceAllocCount s /\
   open_slots (snd r) = 0 /\
   forall i, 0 <= i < U_PORT_I2C_MAX_NUM ->
     pinSda (data_at (snd r) i) = -1 /\ pinSdc (data_at (snd r) i) = -1 /\
     clockHertz (data_at (snd r) i) = -1).
Proof.
  intros Hlen r. subst r.
  unfold uPortI2cInit, run, bind, get, ret, modify. m_reduce.
  repeat apply conj.
  - intros ->. reflexivity.
  - intros -> Hne. apply Z.eqb_neq in Hne. cbn [negb]. rewrite Hne.
    reflexivity.
  - intros -> ->. cbn [negb Z.eqb].
    change (seqZ 0 U_PORT_I2C_MAX_NUM) with [0; 1].
    cbn [fold_right]. unfold bind, ret, get, modify. m_reduce.
    destruct s as [m t c cs]. cbn [gI2cData] in Hlen.
    destruct t as [| a [| b [| x l]]]; try discriminate.
    cbn. repeat apply conj; try reflexivity.
    intros i Hi. unfold U_PORT_I2C_MAX_NUM in Hi.
    assert (Hcases : i = 0 \/ i = 1) by lia.
    destruct Hcases as [-> | ->]; cbn; repeat split.
Qed.

Lemma uPortI2cInit_outcomes_witness :
  fst (run (uPortI2cInit 0) (drv_accepting 7 19) boot_state) = 0 /\
  open_slots (snd (run (uPortI2cInit 0) (drv_accepting 7 19) boot_state)) = 0.
Proof.
  destruct (uPortI2cInit_outcomes (drv_accepting 7 19) boot_state 0 eq_refl)
    as [_ [_ Hinit]].
  destruct (Hinit eq_refl eq_refl) as [Hret [_ [_ [_ [Hnone _]]]]].
  split; [exact Hret | exact Hnone].
Defined.

Lemma uPortI2cInit_table_counted (d : Driver) (s : State) (mutexCreate : Z) :
  table_counted s ->
  table_counted (snd (run (uPortI2cInit mutexCreate) d s)).
Proof.
  intros Hinv. pose proof Hinv as [Hlen [Hcount Hoff]].
  destruct (uPortI2cInit_outcomes d s mutexCreate Hlen) as [Hon [Hfail Hok]].
  destruct (gMutex s) eqn:Hm.
  - rewrite (Hon eq_refl). exact Hinv.
  - destruct (Z.eq_dec mutexCreate 0) as [Hz | Hnz].
    + destruct (Hok eq_refl Hz) as [_ [Hm' [_ [Hc [Hnone _]]]]].
      repeat apply conj.
      * unfold uPortI2cInit, run, bind, get, ret, modify. m_reduce.
        rewrite Hm, Hz. cbn [negb Z.eqb].
        change (seqZ 0 U_PORT_I2C_MAX_NUM) with [0; 1].
        cbn [fold_right]. unfold bind, ret, get, modify. m_reduce.
        cbn. rewrite !length_insert. exact Hlen.
      * rewrite Hc, Hnone, Hcount. apply Hoff. reflexivity.
      * intros _. exact Hnone.
    + rewrite (Hfail eq_refl Hnz). exact Hinv.
Qed.

(** *** Changing the clock *)

Section SetClockPaths.

Variables (d : Driver) (s : State) (handle hz : Z).

Hypothesis initialised : gMutex s = true.
Hypothesis valid : in_range handle = true.
Hypothesis is_open : 0 < clockHertz (data_at s handle).
Hypothesis owned : adopted (data_at s handle) = false.
Hypothesis positive : 0 < hz.

Ltac enter_set_clock :=
  unfold run, uPortI2cSetClock, call_get_timeout, andM, esp_ok, modify, call,
    bind, get, ret;
  m_reduce;
  rewrite initialised, valid, owned;
  replace (clockHertz (data_at s handle) >? 0) with true
    by (symmetry; apply Z.gtb_lt; lia);
  replace (hz >? 0) with true by (symmetry; apply Z.gtb_lt; lia);
  m_reduce.

(** When reading the timeout or deleting the driver fails, the instance is
    as it was: still open, on its old clock. *)
Lemma uPortI2cSetClock_not_torn_down :
  torn_down d s handle = false ->
  fst (run (uPortI2cSetClock handle hz) d s) = U_ERROR_COMMON_PLATFORM /\
  same_globals s (snd (run (uPortI2cSetClock handle hz) d s)).
Proof.
  unfold torn_down. intros Hkept. enter_set_clock.
  destruct (drv_result d (calls s) (i2c_get_timeout handle) =? ESP_OK);
    m_reduce; m_calls; [| repeat split].
  cbn [andb] in Hkept. rewrite Hkept. m_reduce. repeat split.
Qed.

(** When every step goes through, the slot carries the new clock and is
    otherwise as it was; the driver was fed the slot's own pins and the
    timeout register value that was read before the teardown. *)
Lemma uPortI2cSetClock_reinstalled :
  torn_down d s handle = true ->
  reinstalled d s handle hz = true ->
  let r := run (uPortI2cSetClock handle hz) d s in
  let old := data_at s handle in
  fst r = U_ERROR_COMMON_SUCCESS /\
  gMutex (snd r) = gMutex s /\
  gResourceAllocCount (snd r) = gResourceAllocCount s /\
  gI2cData (snd r) =
    <[Z.to_nat handle := mk_data (pinSda old) (pinSdc old) hz (adopted old)]>
      (gI2cData s) /\
  new_calls s (snd r) =
    [i2c_get_timeout handle; i2c_driver_delete handle;
     i2c_param_config handle (make_cfg (pinSda old) (pinSdc old) hz);
     i2c_set_timeout handle (drv_timeout d (calls s) handle);
     i2c_driver_install handle I2C_MODE_MASTER].
Proof.
  intros Hdel Hinst r old. subst r old.
  unfold torn_down in Hdel. unfold reinstalled in Hinst.
  apply andb_true_iff in Hdel as [Hget Hdel].
  apply andb_true_iff in Hinst as [Hinst Hdi].
  apply andb_true_iff in Hinst as [Hpc Hst].
  pose proof (open_slot_lookup s handle is_open) as Hl.
  assert (Hlt : (Z.to_nat handle < length (gI2cData s))%nat)
    by (eapply lookup_lt_Some; exact Hl).
  enter_set_clock.
  rewrite Hget. m_reduce. m_calls. rewrite Hdel. m_reduce. m_calls.
  rewrite Hpc. m_reduce. m_calls. rewrite Hst. m_reduce. m_calls.
  rewrite Hdi. m_reduce. m_calls.
  repeat apply conj; try reflexivity.
  - exact initialised.
  - unfold set_pinSda, set_clockHertz, set_data, data_at. m_calls.
    repeat (rewrite list_lookup_insert_eq
              by (rewrite ?length_insert; exact Hlt);
            cbn [default id pinSda pinSdc clockHertz adopted sda_io_num
                 make_cfg]).
    rewrite !list_insert_insert_eq.
    pose proof owned as Hown. unfold data_at in Hown. rewrite ?Hown.
    reflexivity.
  - m_new_calls. reflexivity.
Qed.

End SetClockPaths.

(** The call reaches the reconfiguration, the driver gets deleted, and one of
    the steps that build the new configuration fails. *)
Definition set_clock_rebuild_failed (d : Driver) (s : State) (handle hz : Z)
    : bool :=
  gMutex s && in_range handle && (clockHertz (data_at s handle) >? 0) &&
  (hz >? 0) && negb (adopted (data_at s handle)) &&
  torn_down d s handle && negb (reinstalled d s handle hz).

(** [uPortI2cSetClock] keeps the table counted on every path but that one. *)
Lemma uPortI2cSetClock_table_counted (d : Driver) (s : State)
    (handle hz : Z) :
  table_counted s ->
  set_clock_rebuild_failed d s handle hz = false ->
  table_counted (snd (run (uPortI2cSetClock handle hz) d s)).
Proof.
  intros Hinv Hpath. unfold set_clock_rebuild_failed in Hpath.
  destruct (gMutex s) eqn:Hm;
    [| unfold run, uPortI2cSetClock, bind, get, ret; m_reduce; rewrite Hm;
       exact Hinv].
  destruct (in_range handle) eqn:Hin;
    [| unfold run, uPortI2cSetClock, bind, get, ret; m_reduce;
       rewrite Hm, Hin; exact Hinv].
  destruct (Z.gtb_spec (clockHertz (data_at s handle)) 0) as [Hopen | Hclosed];
    [| unfold run, uPortI2cSetClock, bind, get, ret; m_reduce;
       rewrite Hm, Hin;
       replace (clockHertz (data_at s handle) >? 0) with false
         by (symmetry; rewrite Z.gtb_ltb; apply Z.ltb_ge; lia);
       exact Hinv].
  destruct (Z.gtb_spec hz 0) as [Hhz | Hhz];
    [| unfold run, uPortI2cSetClock, bind, get, ret; m_reduce;
       rewrite Hm, Hin;
       replace (hz >? 0) with false
         by (symmetry; rewrite Z.gtb_ltb; apply Z.ltb_ge; lia);
       rewrite andb_false_r; exact Hinv].
  destruct (adopted (data_at s handle)) eqn:Hown;
    [ unfold run, uPortI2cSetClock, bind, get, ret; m_reduce;
      rewrite Hm, Hin, Hown;
      replace (clockHertz (data_at s handle) >? 0) with true
        by (symmetry; apply Z.gtb_lt; lia);
      replace (hz >? 0) with true by (symmetry; apply Z.gtb_lt; lia);
      exact Hinv |].
  cbn [andb negb] in Hpath.
  destruct (torn_down d s handle) eqn:Hdel.
  - cbn [andb] in Hpath. apply negb_false_iff in Hpath. rename Hpath into Hinst.
    destruct (uPortI2cSetClock_reinstalled d s handle hz Hm Hin Hopen Hown Hhz
                Hdel Hinst) as [_ [Hm' [Hc [Ht _]]]].
    destruct Hinv as [Hlen [Hcount Hoff]].
    assert (Hslots :
      open_slots (snd (run (uPortI2cSetClock handle hz) d s)) = open_slots s).
    { unfold open_slots. rewrite Ht.
      erewrite open_slots_insert by (apply open_slot_lookup; exact Hopen).
      cbn [clockHertz].
      replace (0 <? clockHertz (data_at s handle)) with true
        by (symmetry; apply Z.ltb_lt; lia).
      replace (0 <? hz) with true by (symmetry; apply Z.ltb_lt; lia). lia. }
    repeat apply conj.
    + rewrite Ht, length_insert. exact Hlen.
    + rewrite Hc, Hslots. exact Hcount.
    + rewrite Hm', Hm. discriminate.
  - destruct (uPortI2cSetClock_not_torn_down d s handle hz Hm Hin Hopen Hown
                Hhz Hdel) as [_ Hsame].
    eapply table_counted_same_globals; eassumption.
Qed.

(** ** The public interface as a machine *)

Inductive ApiCall : Type :=
| Init (mutexCreate : Z)
| Deinit
| Open (i2c pinSda pinSdc : Z) (controller : bool)
| Adopt (i2c : Z) (controller : bool)
| Close (handle : Z)
| CloseRecoverBus (handle : Z)
| SetClock (handle hz : Z)
| GetClock (handle : Z)
| SetTimeout (handle timeoutMs : Z)
| GetTimeout (handle : Z)
| ControllerSendReceive (handle address : Z) (pSend : option Z)
    (bytesToSend : Z) (pReceive : option Z) (bytesToReceive : Z)
| ControllerSend (handle address : Z) (pSend : option Z) (bytesToSend : Z)
    (noStop : bool)
| ResourceAllocCount.

(** The state a call leaves behind. *)
Definition api_call (c : ApiCall) (d : Driver) (s : State) : State :=
  match c with
  | Init mutexCreate => snd (run (uPortI2cInit mutexCreate) d s)
  | Deinit => snd (run uPortI2cDeinit d s)
  | Open i2c pinSda pinSdc controller =>
      snd (run (uPortI2cOpen i2c pinSda pinSdc controller) d s)
  | Adopt i2c controller => snd (run (uPortI2cAdopt i2c controller) d s)
  | Close handle => snd (run (uPortI2cClose handle) d s)
  | CloseRecoverBus handle => snd (run (uPortI2cCloseRecoverBus handle) d s)
  | SetClock handle hz => snd (run (uPortI2cSetClock handle hz) d s)
  | GetClock handle => snd (run (uPortI2cGetClock handle) d s)
  | SetTimeout handle timeoutMs =>
      snd (run (uPortI2cSetTimeout handle timeoutMs) d s)
  | GetTimeout handle => snd (run (uPortI2cGetTimeout handle) d s)
  | ControllerSendReceive handle address pSend bytesToSend pReceive
      bytesToReceive =>
      snd (run (uPortI2cControllerSendReceive handle address pSend bytesToSend
                  pReceive bytesToReceive) d s)
  | ControllerSend handle address pSend bytesToSend noStop =>
      snd (run (uPortI2cControllerSend handle address pSend bytesToSend noStop)
             d s)
  | ResourceAllocCount => snd (run uPortI2cResourceAllocCount d s)
  end.

(** The one way to lose count: a [uPortI2cSetClock] that got as far as
    deleting the driver and then could not install it again. *)
Definition rebuild_failed (c : ApiCall) (d : Driver) (s : State) : bool :=
  match c with
  | SetClock handle hz => set_clock_rebuild_failed d s handle hz
  | _ => false
  end.

(** A sequence of calls, and whether one of them loses count on the way. *)
Fixpoint api_calls (cs : list ApiCall) (d : Driver) (s : State) : State :=
  match cs with
  | [] => s
  | c :: cs' => api_calls cs' d (api_call c d s)
  end.

Fixpoint no_rebuild_failed (cs : list ApiCall) (d : Driver) (s : State)
    : bool :=
  match cs with
  | [] => true
  | c :: cs' =>
      negb (rebuild_failed c d s) && no_rebuild_failed cs' d (api_call c d s)
  end.

Lemma api_call_table_counted (c : ApiCall) (d : Driver) (s : State) :
  table_counted s -> rebuild_failed c d s = false ->
  table_counted (api_call c d s).
Proof.
  intros Hinv Hok.
  pose proof (fun h a t n m p q b =>
                queries_and_transfers_same_globals d s h a t n m p q b)
    as Hsame.
  destruct c; cbn [api_call rebuild_failed] in *.
  - apply uPortI2cInit_table_counted. exact Hinv.
  - apply (uPortI2cDeinit_closes_all d s Hinv).
  - apply openI2c_table_counted. exact Hinv.
  - apply openI2c_table_counted. exact Hinv.
  - apply uPortI2cClose_table_counted. exact Hinv.
  - apply uPortI2cCloseRecoverBus_table_counted. exact Hinv.
  - apply uPortI2cSetClock_table_counted; assumption.
  - eapply table_counted_same_globals; [| exact Hinv].
    apply (Hsame handle 0 0 0 0 None None false).
  - eapply table_counted_same_globals; [| exact Hinv].
    apply (Hsame handle 0 timeoutMs 0 0 None None false).
  - eapply table_counted_same_globals; [| exact Hinv].
    apply (Hsame handle 0 0 0 0 None None false).
  - eapply table_counted_same_globals; [| exact Hinv].
    apply (Hsame handle address 0 bytesToSend bytesToReceive pSend pReceive
             false).
  - eapply table_counted_same_globals; [| exact Hinv].
    apply (Hsame handle address 0 bytesToSend 0 pSend None noStop).
  - exact Hinv.
Qed.

Lemma boot_state_table_counted : table_counted boot_state.
Proof. repeat split. Qed.

(** From power-up, after any sequence of calls of the public functions, with
    any arguments and any answers of the driver, the counter read by
    [uPortI2cResourceAllocCount] is the number of open slots, provided no
    [uPortI2cSetClock] on the way deleted the driver without getting it
    installed again. *)
Theorem resource_count_is_open_slots (cs : list ApiCall) (d : Driver) :
  no_rebuild_failed cs d boot_state = true ->
  let s := api_calls cs d boot_state in
  fst (run uPortI2cResourceAllocCount d s) = open_slots s /\
  0 <= open_slots s <= U_PORT_I2C_MAX_NUM /\
  (gMutex s = false -> open_slots s = 0).
Proof.
  intros Hok s.
  assert (Hinv : table_counted s).
  { subst s. revert Hok. generalize boot_state_table_counted.
    generalize boot_state as s0. induction cs as [| c cs IH]; intros s0 H0 Hok.
    - exact H0.
    - cbn [api_calls no_rebuild_failed] in *.
      apply andb_true_iff in Hok as [Hc Hrest].
      apply negb_true_iff in Hc.
      apply IH; [| exact Hrest].
      apply api_call_table_counted; assumption. }
  destruct Hinv as [Hlen [Hcount Hoff]].
  pose proof (open_slots_bounds s) as Hb. rewrite Hlen in Hb.
  repeat apply conj; try assumption; try apply Hb.
Qed.

Lemma resource_count_is_open_slots_witness :
  fst (run uPortI2cResourceAllocCount (drv_accepting 7 19)
         (api_calls [Init 0; Open 0 4 5 true; Adopt 1 true; SetClock 0 400000;
                     Close 1]
            (drv_accepting 7 19) boot_state)) =
  open_slots
    (api_calls [Init 0; Open 0 4 5 true; Adopt 1 true; SetClock 0 400000;
                Close 1]
       (drv_accepting 7 19) boot_state).
Proof.
  apply (resource_count_is_open_slots
           [Init 0; Open 0 4 5 true; Adopt 1 true; SetClock 0 400000; Close 1]
           (drv_accepting 7 19)).
  vm_compute. reflexivity.
Defined.

(** ** Life of an instance *)

(** After a [uPortI2cSetClock] whose every step went through, reading the
    clock gives the new value; the pins and the counter are what they were,
    and the driver was reconfigured with the recorded pins, the new clock
    and the timeout register value read before the teardown. *)
Theorem uPortI2cSetClock_then_GetClock (d : Driver) (s : State)
    (handle hz : Z) :
  gMutex s = true ->
  0 <= handle < U_PORT_I2C_MAX_NUM ->
  0 < clockHertz (data_at s handle) ->
  adopted (data_at s handle) = false ->
  0 < hz ->
  torn_down d s handle = true ->
  reinstalled d s handle hz = true ->
  let s' := snd (run (uPortI2cSetClock handle hz) d s) in
  fst (run (uPortI2cSetClock handle hz) d s) = U_ERROR_COMMON_SUCCESS /\
  run (uPortI2cGetClock handle) d s' = (hz, s') /\
  pinSda (data_at s' handle) = pinSda (data_at s handle) /\
  pinSdc (data_at s' handle) = pinSdc (data_at s handle) /\
  gResourceAllocCount s' = gResourceAllocCount s /\
  new_calls s s' =
    [i2c_get_timeout handle; i2c_driver_delete handle;
     i2c_param_config handle
       (make_cfg (pinSda (data_at s handle)) (pinSdc (data_at s handle)) hz);
     i2c_set_timeout handle (drv_timeout d (calls s) handle);
     i2c_driver_install handle I2C_MODE_MASTER].
Proof.
  intros Hm Hr Hopen Hown Hhz Hdel Hinst s'.
  pose proof (in_range_inside _ Hr) as Hin.
  destruct (uPortI2cSetClock_reinstalled d s handle hz Hm Hin Hopen Hown Hhz
              Hdel Hinst) as [Hret [Hm' [Hc [Ht Hcalls]]]].
  fold s' in Hret, Hm', Hc, Ht, Hcalls.
  assert (Hdata : data_at s' handle =
                  mk_data (pinSda (data_at s handle))
                    (pinSdc (data_at s handle)) hz
                    (adopted (data_at s handle))).
  { unfold data_at at 1. rewrite Ht.
    rewrite list_lookup_insert_eq; [reflexivity |].
    eapply lookup_lt_Some. apply open_slot_lookup. exact Hopen. }
  repeat apply conj; try assumption.
  - unfold run, uPortI2cGetClock, bind, get, ret. m_reduce.
    rewrite Hm', Hm, Hin, Hdata. cbn [clockHertz adopted]. rewrite Hown.
    replace (hz >? 0) with true by (symmetry; apply Z.gtb_lt; lia).
    reflexivity.
  - rewrite Hdata. reflexivity.
  - rewrite Hdata. reflexivity.
Qed.

Lemma uPortI2cSetClock_then_GetClock_witness :
  fst (run (uPortI2cSetClock 0 400000) (drv_accepting 7 19) s_adopt1) =
    U_ERROR_COMMON_SUCCESS /\
  fst (run (uPortI2cGetClock 0) (drv_accepting 7 19)
         (snd (run (uPortI2cSetClock 0 400000) (drv_accepting 7 19) s_adopt1)))
  = 400000.
Proof.
  destruct (uPortI2cSetClock_then_GetClock (drv_accepting 7 19) s_adopt1
              0 400000 eq_refl
              ltac:(vm_compute; split; [discriminate | reflexivity])
              eq_refl eq_refl eq_refl eq_refl eq_refl)
    as [Hret [Hget _]].
  split; [exact Hret |]. rewrite Hget. reflexivity.
Defined.

(** When reading the timeout or deleting the driver fails,
    [uPortI2cSetClock] returns the Platform error and the instance is as it
    was: still open on its old clock, the counter untouched. *)
Theorem uPortI2cSetClock_early_failure (d : Driver) (s : State)
    (handle hz : Z) :
  gMutex s = true ->
  0 <= handle < U_PORT_I2C_MAX_NUM ->
  0 < clockHertz (data_at s handle) ->
  adopted (data_at s handle) = false ->
  0 < hz ->
  torn_down d s handle = false ->
  let s' := snd (run (uPortI2cSetClock handle hz) d s) in
  fst (run (uPortI2cSetClock handle hz) d s) = U_ERROR_COMMON_PLATFORM /\
  same_globals s s' /\
  fst (run (uPortI2cGetClock handle) d s') = clockHertz (data_at s handle).
Proof.
  intros Hm Hr Hopen Hown Hhz Hkept s'.
  pose proof (in_range_inside _ Hr) as Hin.
  destruct (uPortI2cSetClock_not_torn_down d s handle hz Hm Hin Hopen Hown Hhz
              Hkept) as [Hret Hsame].
  fold s' in Hret, Hsame.
  split; [exact Hret |]. split; [exact Hsame |].
  destruct Hsame as [Hm' [Ht _]].
  unfold run, uPortI2cGetClock, bind, get, ret, data_at. m_reduce.
  rewrite Hm', Hm, Hin, Ht. fold (data_at s handle). rewrite Hown.
  replace (clockHertz (data_at s handle) >? 0) with true
    by (symmetry; apply Z.gtb_lt; lia).
  reflexivity.
Qed.

(** A driver that will not delete. *)
Definition drv_no_delete : Driver :=
  drv_refusing
    (fun c => match c with i2c_driver_delete _ => true | _ => false end) 7 19.

Lemma uPortI2cSetClock_early_failure_witness :
  fst (run (uPortI2cSetClock 0 400000) drv_no_delete s_adopt1) =
    U_ERROR_COMMON_PLATFORM /\
  fst (run (uPortI2cGetClock 0) drv_no_delete
         (snd (run (uPortI2cSetClock 0 400000) drv_no_delete s_adopt1)))
  = 100000.
Proof.
  destruct (uPortI2cSetClock_early_failure drv_no_delete s_adopt1
              0 400000 eq_refl
              ltac:(vm_compute; split; [discriminate | reflexivity])
              eq_refl eq_refl eq_refl eq_refl)
    as [Hret [_ Hget]].
  split; [exact Hret | exact Hget].
Defined.

(** Closing twice is closing once: the second [uPortI2cClose] finds the slot
    closed and changes nothing, with any handle and any driver. *)
Theorem uPortI2cClose_idempotent (d d' : Driver) (s : State) (handle : Z) :
  run (uPortI2cClose handle) d' (snd (run (uPortI2cClose handle) d s)) =
  (tt, snd (run (uPortI2cClose handle) d s)).
Proof.
  unfold uPortI2cClose, run, bind, get, ret. m_reduce.
  destruct (gMutex s) eqn:Hm; m_reduce; [| rewrite Hm; reflexivity].
  destruct (in_range handle) eqn:Hin; m_reduce;
    [| rewrite Hm; reflexivity].
  pose proof (closeI2c_run d s handle) as Hrun. unfold run in Hrun.
  rewrite Hrun. cbn [snd].
  destruct (Z.gtb_spec (clockHertz (data_at s handle)) 0) as [Hopen | Hclosed].
  - set (s1 := if adopted (data_at s handle) then s
               else record_call (i2c_driver_delete handle) s).
    assert (Hm1 : gMutex s1 = true) by (subst s1; destruct (adopted _); exact Hm).
    assert (Hclk :
      clockHertz
        (data_at (set_count (to_int32 (gResourceAllocCount s - 1))
                    (set_clockHertz handle (-1) s1)) handle) = -1).
    { apply (clockHertz_set_clockHertz s1 handle (-1)).
      subst s1. destruct (adopted (data_at s handle)); exact Hopen. }
    cbn zeta. fold s1.
    replace (gMutex (set_count (to_int32 (gResourceAllocCount s - 1))
                       (set_clockHertz handle (-1) s1))) with true
      by (symmetry; exact Hm1).
    cbn [andb].
    pose proof (closeI2c_run d'
                  (set_count (to_int32 (gResourceAllocCount s - 1))
                     (set_clockHertz handle (-1) s1)) handle) as Hrun'.
    unfold run in Hrun'. rewrite Hrun'. rewrite Hclk. reflexivity.
  - rewrite Hm. cbn [andb].
    pose proof (closeI2c_run d' s handle) as Hrun'.
    unfold run in Hrun'. rewrite Hrun'.
    replace (clockHertz (data_at s handle) >? 0) with false
      by (symmetry; rewrite Z.gtb_ltb; apply Z.ltb_ge; lia).
    reflexivity.
Qed.

(** The answers of the driver to the three calls by which [openI2c]
    programs block [i2c]. *)
Definition programmed (d : Driver) (s : State) (i2c pinSda pinSdc : Z)
    : bool :=
  let cfg := make_cfg pinSda pinSdc U_PORT_I2C_CLOCK_FREQUENCY_HERTZ in
  let reg := timeoutMsToEsp32 U_PORT_I2C_CLOCK_PERIOD_NS
               U_PORT_I2C_TIMEOUT_MILLISECONDS in
  let c1 := calls s ++ [i2c_param_config i2c cfg] in
  let c2 := c1 ++ [i2c_set_timeout i2c reg] in
  (drv_result d (calls s) (i2c_param_config i2c cfg) =? ESP_OK) &&
  (drv_result d c1 (i2c_set_timeout i2c reg) =? ESP_OK) &&
  (drv_result d c2 (i2c_driver_install i2c I2C_MODE_MASTER) =? ESP_OK).

(** Opening a closed slot on set pins, with the driver taking the
    configuration, returns the index as handle, after which the clock reads
    as the default; closing it again brings the counter back to where it was
    and marks the slot closed. Between them the driver saw the
    configuration, the default timeout, the installation and the deletion.
    The pins stay recorded in the closed slot. *)
Theorem open_close_round_trip (d : Driver) (s : State)
    (i2c pinSda pinSdc : Z) :
  gMutex s = true ->
  0 <= i2c < U_PORT_I2C_MAX_NUM ->
  clockHertz (data_at s i2c) < 0 ->
  0 <= pinSda -> 0 <= pinSdc ->
  - 2 ^ 31 <= gResourceAllocCount s < INT32_MAX ->
  programmed d s i2c pinSda pinSdc = true ->
  let s1 := snd (run (uPortI2cOpen i2c pinSda pinSdc true) d s) in
  let s2 := snd (run (uPortI2cClose i2c) d s1) in
  fst (run (uPortI2cOpen i2c pinSda pinSdc true) d s) = i2c /\
  run (uPortI2cGetClock i2c) d s1 = (U_PORT_I2C_CLOCK_FREQUENCY_HERTZ, s1) /\
  gResourceAllocCount s1 = gResourceAllocCount s + 1 /\
  gResourceAllocCount s2 = gResourceAllocCount s /\
  data_at s2 i2c = mk_data pinSda pinSdc (-1) false /\
  new_calls s s2 =
    [i2c_param_config i2c
       (make_cfg pinSda pinSdc U_PORT_I2C_CLOCK_FREQUENCY_HERTZ);
     i2c_set_timeout i2c
       (timeoutMsToEsp32 U_PORT_I2C_CLOCK_PERIOD_NS
          U_PORT_I2C_TIMEOUT_MILLISECONDS);
     i2c_driver_install i2c I2C_MODE_MASTER;
     i2c_driver_delete i2c].
Proof.
  intros Hm Hr Hclosed Hsda Hsdc Hcount Hprog s1 s2.
  unfold programmed in Hprog. cbv zeta in Hprog.
  apply andb_true_iff in Hprog as [Hprog Hdi].
  apply andb_true_iff in Hprog as [Hpc Hst].
  pose proof (in_range_inside _ Hr) as Hin.
  pose proof (live_slot_lookup s i2c ltac:(lia)) as Hl.
  assert (Hlt : (Z.to_nat i2c < length (gI2cData s))%nat)
    by (eapply lookup_lt_Some; exact Hl).
  unfold INT32_MAX in Hcount.
  assert (Hs1 :
    run (uPortI2cOpen i2c pinSda pinSdc true) d s =
    (i2c,
     set_count (gResourceAllocCount s + 1)
       (set_data i2c
          (mk_data pinSda pinSdc U_PORT_I2C_CLOCK_FREQUENCY_HERTZ false)
          (record_call (i2c_driver_install i2c I2C_MODE_MASTER)
             (record_call
                (i2c_set_timeout i2c
                   (timeoutMsToEsp32 U_PORT_I2C_CLOCK_PERIOD_NS
                      U_PORT_I2C_TIMEOUT_MILLISECONDS))
                (record_call
                   (i2c_param_config i2c
                      (make_cfg pinSda pinSdc
                         U_PORT_I2C_CLOCK_FREQUENCY_HERTZ)) s)))))).
  { unfold run, uPortI2cOpen, openI2c, U_ATOMIC_INCREMENT, modify, andM, orM,
      esp_ok, call, bind, get, ret.
    m_reduce. rewrite Hm, Hin.
    replace (clockHertz (data_at s i2c) <? 0) with true
      by (symmetry; apply Z.ltb_lt; lia).
    replace (pinSda >=? 0) with true
      by (symmetry; rewrite Z.geb_leb; apply Z.leb_le; lia).
    replace (pinSdc >=? 0) with true
      by (symmetry; rewrite Z.geb_leb; apply Z.leb_le; lia).
    m_reduce. rewrite Hpc. m_reduce. m_calls. rewrite Hst. m_reduce. m_calls.
    rewrite Hdi. m_reduce. m_calls.
    rewrite to_int32_small by lia. reflexivity. }
  subst s2 s1. rewrite Hs1. cbn [fst snd].
  set (s1 := set_count _ _).
  assert (Hdata1 : data_at s1 i2c =
                   mk_data pinSda pinSdc U_PORT_I2C_CLOCK_FREQUENCY_HERTZ false).
  { subst s1. unfold data_at, set_count, set_data. m_calls.
    rewrite list_lookup_insert_eq by exact Hlt. reflexivity. }
  assert (Hm1 : gMutex s1 = true) by exact Hm.
  assert (Hs2 :
    run (uPortI2cClose i2c) d s1 =
    (tt, set_count (gResourceAllocCount s)
           (set_clockHertz i2c (-1)
              (record_call (i2c_driver_delete i2c) s1)))).
  { unfold uPortI2cClose, run, bind, get, ret. m_reduce.
    rewrite Hm1, Hin. cbn [andb].
    pose proof (closeI2c_run d s1 i2c) as Hrun. unfold run in Hrun.
    rewrite Hrun, Hdata1. cbn [clockHertz adopted].
    change (U_PORT_I2C_CLOCK_FREQUENCY_HERTZ >? 0) with true. cbv iota zeta.
    replace (gResourceAllocCount s1) with (gResourceAllocCount s + 1)
      by reflexivity.
    rewrite to_int32_small by lia.
    replace (gResourceAllocCount s + 1 - 1) with (gResourceAllocCount s)
      by lia.
    reflexivity. }
  rewrite Hs2. cbn [snd].
  repeat apply conj; try reflexivity.
  - unfold run, uPortI2cGetClock, bind, get, ret. m_reduce.
    rewrite Hm1, Hin, Hdata1. reflexivity.
  - unfold data_at at 1, set_count, set_clockHertz, set_data. m_calls.
    rewrite list_lookup_insert_eq
      by (subst s1; m_calls; rewrite length_insert; exact Hlt).
    unfold record_call. fold s1.
    replace (data_at
               (mk_state (gMutex s1) (gI2cData s1) (gResourceAllocCount s1)
                  (calls s1 ++ [i2c_driver_delete i2c])) i2c)
      with (data_at s1 i2c) by reflexivity.
    rewrite Hdata1. reflexivity.
  - subst s1. m_new_calls. reflexivity.
Qed.

Lemma open_close_round_trip_witness :
  fst (run (uPortI2cOpen 1 18 19 true) (drv_accepting 7 19) s_open0) = 1 /\
  gResourceAllocCount
    (snd (run (uPortI2cClose 1) (drv_accepting 7 19)
            (snd (run (uPortI2cOpen 1 18 19 true) (drv_accepting 7 19)
                    s_open0)))) = gResourceAllocCount s_open0.
Proof.
  destruct (open_close_round_trip (drv_accepting 7 19) s_open0 1 18 19
              eq_refl
              ltac:(vm_compute; split; [discriminate | reflexivity])
              eq_refl
              ltac:(vm_compute; discriminate)
              ltac:(vm_compute; discriminate)
              ltac:(vm_compute; split; [discriminate | reflexivity])
              eq_refl)
    as [Hret [_ [_ [Hback _]]]].
  split; [exact Hret | exact Hback].
Defined.

(** Adopting a closed slot and closing it again makes no driver call at all:
    the hardware of an adopted instance is neither configured nor torn
    down. The counter goes up by one and comes back. *)
Theorem adopt_close_no_driver_call (d : Driver) (s : State) (i2c : Z) :
  gMutex s = true ->
  0 <= i2c < U_PORT_I2C_MAX_NUM ->
  clockHertz (data_at s i2c) < 0 ->
  - 2 ^ 31 <= gResourceAllocCount s < INT32_MAX ->
  let s1 := snd (run (uPortI2cAdopt i2c true) d s) in
  let s2 := snd (run (uPortI2cClose i2c) d s1) in
  fst (run (uPortI2cAdopt i2c true) d s) = i2c /\
  data_at s1 i2c = mk_data (-1) (-1) U_PORT_I2C_CLOCK_FREQUENCY_HERTZ true /\
  gResourceAllocCount s1 = gResourceAllocCount s + 1 /\
  calls s2 = calls s /\
  gResourceAllocCount s2 = gResourceAllocCount s /\
  data_at s2 i2c = mk_data (-1) (-1) (-1) true.
Proof.
  intros Hm Hr Hclosed Hcount s1 s2.
  pose proof (in_range_inside _ Hr) as Hin.
  pose proof (live_slot_lookup s i2c ltac:(lia)) as Hl.
  assert (Hlt : (Z.to_nat i2c < length (gI2cData s))%nat)
    by (eapply lookup_lt_Some; exact Hl).
  unfold INT32_MAX in Hcount.
  assert (Hs1 :
    run (uPortI2cAdopt i2c true) d s =
    (i2c,
     set_count (gResourceAllocCount s + 1)
       (set_data i2c
          (mk_data (-1) (-1) U_PORT_I2C_CLOCK_FREQUENCY_HERTZ true) s))).
  { unfold run, uPortI2cAdopt, openI2c, U_ATOMIC_INCREMENT, modify, andM, orM,
      esp_ok, call, bind, get, ret.
    m_reduce. rewrite Hm, Hin.
    replace (clockHertz (data_at s i2c) <? 0) with true
      by (symmetry; apply Z.ltb_lt; lia).
    m_reduce. m_calls. rewrite to_int32_small by lia. reflexivity. }
  subst s2 s1. rewrite Hs1. cbn [fst snd].
  set (s1 := set_count _ _).
  assert (Hdata1 : data_at s1 i2c =
                   mk_data (-1) (-1) U_PORT_I2C_CLOCK_FREQUENCY_HERTZ true).
  { subst s1. unfold data_at, set_count, set_data. m_calls.
    rewrite list_lookup_insert_eq by exact Hlt. reflexivity. }
  assert (Hm1 : gMutex s1 = true) by exact Hm.
  assert (Hs2 :
    run (uPortI2cClose i2c) d s1 =
    (tt, set_count (gResourceAllocCount s) (set_clockHertz i2c (-1) s1))).
  { unfold uPortI2cClose, run, bind, get, ret. m_reduce.
    rewrite Hm1, Hin. cbn [andb].
    pose proof (closeI2c_run d s1 i2c) as Hrun. unfold run in Hrun.
    rewrite Hrun, Hdata1. cbn [clockHertz adopted].
    change (U_PORT_I2C_CLOCK_FREQUENCY_HERTZ >? 0) with true. cbv iota zeta.
    replace (gResourceAllocCount s1) with (gResourceAllocCount s + 1)
      by reflexivity.
    rewrite to_int32_small by lia.
    replace (gResourceAllocCount s + 1 - 1) with (gResourceAllocCount s)
      by lia.
    reflexivity. }
  rewrite Hs2. cbn [snd].
  repeat apply conj; try reflexivity; try exact Hdata1.
  unfold data_at at 1, set_count, set_clockHertz, set_data. m_calls.
  rewrite list_lookup_insert_eq
    by (subst s1; m_calls; rewrite length_insert; exact Hlt).
  rewrite Hdata1. reflexivity.
Qed.

Lemma adopt_close_no_driver_call_witness :
  calls (snd (run (uPortI2cClose 1) (drv_accepting 7 19)
                (snd (run (uPortI2cAdopt 1 true) (drv_accepting 7 19)
                        s_open0)))) = calls s_open0.
Proof.
  destruct (adopt_close_no_driver_call (drv_accepting 7 19) s_open0 1
              eq_refl
              ltac:(vm_compute; split; [discriminate | reflexivity])
              eq_refl
              ltac:(vm_compute; split; [discriminate | reflexivity]))
    as [_ [_ [_ [Hcalls _]]]].
  exact Hcalls.
Defined.

(** ** Refusals *)

(** Without the mutex, that is before [uPortI2cInit] or after
    [uPortI2cDeinit], every function that returns a code returns
    NotInitialised, closing and deinitialising do nothing, and the state,
    the record of driver calls included, is untouched. *)
Theorem not_initialised_refused (d : Driver) (s : State)
    (handle index pinSda pinSdc hz timeoutMs address bytesToSend
       bytesToReceive : Z)
    (pSend pReceive : option Z) (controller noStop : bool) :
  gMutex s = false ->
  run (uPortI2cOpen index pinSda pinSdc controller) d s =
    (U_ERROR_COMMON_NOT_INITIALISED, s) /\
  run (uPortI2cAdopt index controller) d s =
    (U_ERROR_COMMON_NOT_INITIALISED, s) /\
  run (uPortI2cCloseRecoverBus handle) d s =
    (U_ERROR_COMMON_NOT_INITIALISED, s) /\
  run (uPortI2cSetClock handle hz) d s =
    (U_ERROR_COMMON_NOT_INITIALISED, s) /\
  run (uPortI2cGetClock handle) d s = (U_ERROR_COMMON_NOT_INITIALISED, s) /\
  run (uPortI2cSetTimeout handle timeoutMs) d s =
    (U_ERROR_COMMON_NOT_INITIALISED, s) /\
  run (uPortI2cGetTimeout handle) d s =
    (Some U_ERROR_COMMON_NOT_INITIALISED, s) /\
  run (uPortI2cControllerSendReceive handle address pSend bytesToSend
         pReceive bytesToReceive) d s =
    (U_ERROR_COMMON_NOT_INITIALISED, s) /\
  run (uPortI2cControllerSend handle address pSend bytesToSend noStop) d s =
    (U_ERROR_COMMON_NOT_INITIALISED, s) /\
  run (uPortI2cClose handle) d s = (tt, s) /\
  run uPortI2cDeinit d s = (tt, s).
Proof.
  intros Hm.
  unfold uPortI2cOpen, uPortI2cAdopt, openI2c, uPortI2cCloseRecoverBus,
    uPortI2cSetClock, uPortI2cGetClock, uPortI2cSetTimeout,
    uPortI2cGetTimeout, uPortI2cControllerSendReceive, uPortI2cControllerSend,
    uPortI2cClose, uPortI2cDeinit, run, bind, get, ret.
  m_reduce. rewrite Hm. cbn [andb]. repeat split.
Qed.

Lemma not_initialised_refused_witness :
  run (uPortI2cOpen 0 4 5 true) (drv_accepting 7 19) boot_state =
    (U_ERROR_COMMON_NOT_INITIALISED, boot_state) /\
  run (uPortI2cControllerSend 0 66 (Some 100) 2 false) (drv_accepting 7 19)
    boot_state = (U_ERROR_COMMON_NOT_INITIALISED, boot_state).
Proof.
  destruct (not_initialised_refused (drv_accepting 7 19) boot_state
              0 0 4 5 0 0 66 2 0 (Some 100) None true false eq_refl)
    as [Hopen [_ [_ [_ [_ [_ [_ [_ [Hsend _]]]]]]]]].
  split; [exact Hopen | exact Hsend].
Defined.

(** With the table initialised, a handle that is out of range, or whose slot
    is not open, is refused with InvalidParameter by every function that
    takes a handle and returns a code; closing it does nothing. Nothing is
    changed and the driver is not called. *)
Theorem invalid_handle_refused (d : Driver) (s : State)
    (handle hz timeoutMs address bytesToSend bytesToReceive : Z)
    (pSend pReceive : option Z) (noStop : bool) :
  gMutex s = true ->
  - 2 ^ 31 <= handle <= INT32_MAX ->
  handle < 0 \/ U_PORT_I2C_MAX_NUM <= handle \/
  clockHertz (data_at s handle) <= 0 ->
  run (uPortI2cCloseRecoverBus handle) d s =
    (U_ERROR_COMMON_INVALID_PARAMETER, s) /\
  run (uPortI2cSetClock handle hz) d s =
    (U_ERROR_COMMON_INVALID_PARAMETER, s) /\
  run (uPortI2cGetClock handle) d s = (U_ERROR_COMMON_INVALID_PARAMETER, s) /\
  run (uPortI2cSetTimeout handle timeoutMs) d s =
    (U_ERROR_COMMON_INVALID_PARAMETER, s) /\
  run (uPortI2cGetTimeout handle) d s =
    (Some U_ERROR_COMMON_INVALID_PARAMETER, s) /\
  run (uPortI2cControllerSendReceive handle address pSend bytesToSend
         pReceive bytesToReceive) d s =
    (U_ERROR_COMMON_INVALID_PARAMETER, s) /\
  run (uPortI2cControllerSend handle address pSend bytesToSend noStop) d s =
    (U_ERROR_COMMON_INVALID_PARAMETER, s) /\
  run (uPortI2cClose handle) d s = (tt, s).
Proof.
  intros Hm Hr Hbad.
  assert (Hcond :
    in_range handle && (clockHertz (data_at s handle) >? 0) = false).
  { destruct Hbad as [Hneg | [Hbig | Hclosed]].
    - rewrite in_range_outside by (try assumption; left; exact Hneg).
      reflexivity.
    - rewrite in_range_outside by (try assumption; right; exact Hbig).
      reflexivity.
    - replace (clockHertz (data_at s handle) >? 0) with false
        by (symmetry; rewrite Z.gtb_ltb; apply Z.ltb_ge; lia).
      apply andb_false_r. }
  unfold uPortI2cCloseRecoverBus, uPortI2cSetClock, uPortI2cGetClock,
    uPortI2cSetTimeout, uPortI2cGetTimeout, uPortI2cControllerSendReceive,
    uPortI2cControllerSend, uPortI2cClose, run, bind, get, ret.
  m_reduce. rewrite Hm, Hcond. cbn [andb]. repeat apply conj; try reflexivity.
  pose proof (closeI2c_run d s handle) as Hrun. unfold run in Hrun.
  destruct (in_range handle); [| reflexivity].
  cbn [andb] in Hcond. rewrite Hrun, Hcond. reflexivity.
Qed.

Lemma invalid_handle_refused_witness :
  run (uPortI2cGetClock 1) (drv_accepting 7 19) s_open0 =
    (U_ERROR_COMMON_INVALID_PARAMETER, s_open0) /\
  run (uPortI2cSetTimeout 2 10) (drv_accepting 7 19) s_open0 =
    (U_ERROR_COMMON_INVALID_PARAMETER, s_open0).
Proof.
  split.
  - apply (invalid_handle_refused (drv_accepting 7 19) s_open0
             1 0 0 0 0 0 None None false eq_refl);
      [vm_compute; split; discriminate |].
    right. right. vm_compute. discriminate.
  - apply (invalid_handle_refused (drv_accepting 7 19) s_open0
             2 0 10 0 0 0 None None false eq_refl);
      [vm_compute; split; discriminate |].
    right. left. vm_compute. discriminate.
Defined.

(** ** Addressing *)

(** What the address macros put on the bus, checked on the ten bits that
    they look at. *)
Definition address_bytes_ok (address : Z) : bool :=
  (to_uint8 (U_PORT_10BIT_HEADER_WRITE address) =? 240 + 2 * (address / 256))
  &&
  (to_uint8 (U_PORT_10BIT_HEADER_READ address) =? 241 + 2 * (address / 256))
  &&
  ((127 <? address) ||
   ((to_uint8 (U_PORT_7BIT_ADDRESS_WRITE address) =? 2 * address) &&
    (to_uint8 (U_PORT_7BIT_ADDRESS_READ address) =? 2 * address + 1))).

(** The header macros only see bits 9 and 8. *)
Lemma land_768_mod (address : Z) :
  Z.land address 768 = Z.land (address mod 1024) 768.
Proof.
  change 1024 with (2 ^ 10). rewrite <- Z.land_ones by lia.
  rewrite <- Z.land_assoc. reflexivity.
Qed.

(** A 7-bit address goes out as twice the address, plus one for reading.
    A 10-bit address goes out as a header 11110xx0 (xx1 for reading) carrying
    bits 9 and 8, and a second byte carrying bits 7 to 0, so that an address
    up to 1023 can be read back from the two bytes; bits above bit 9 of a
    larger address are dropped. *)
Theorem address_bytes (address : Z) :
  0 <= address < 2 ^ 16 ->
  let header := to_uint8 (U_PORT_10BIT_HEADER_WRITE address) in
  let low := to_uint8 (U_PORT_10BIT_ADDRESS address) in
  240 <= header <= 246 /\ header mod 2 = 0 /\
  to_uint8 (U_PORT_10BIT_HEADER_READ address) = header + 1 /\
  256 * ((header - 240) / 2) + low = address mod 1024 /\
  (address <= 127 ->
   to_uint8 (U_PORT_7BIT_ADDRESS_WRITE address) = 2 * address /\
   to_uint8 (U_PORT_7BIT_ADDRESS_READ address) = 2 * address + 1).
Proof.
  intros Ha header low.
  assert (Hm : 0 <= address mod 1024 < 1024) by (apply Z.mod_pos_bound; lia).
  assert (Hok : address_bytes_ok (address mod 1024) = true).
  { apply (forallb_seqZ address_bytes_ok 0 1024);
      [vm_compute; reflexivity | lia]. }
  unfold address_bytes_ok in Hok.
  apply andb_true_iff in Hok as [Hok H7].
  apply andb_true_iff in Hok as [Hw Hr].
  apply Z.eqb_eq in Hw, Hr.
  assert (Hhw : U_PORT_10BIT_HEADER_WRITE (address mod 1024) =
                U_PORT_10BIT_HEADER_WRITE address)
    by (unfold U_PORT_10BIT_HEADER_WRITE; rewrite <- land_768_mod;
        reflexivity).
  assert (Hhr : U_PORT_10BIT_HEADER_READ (address mod 1024) =
                U_PORT_10BIT_HEADER_READ address)
    by (unfold U_PORT_10BIT_HEADER_READ; rewrite <- land_768_mod;
        reflexivity).
  rewrite Hhw in Hw. rewrite Hhr in Hr. fold header in Hw.
  assert (Hlow : low = address mod 256).
  { subst low. unfold U_PORT_10BIT_ADDRESS, to_uint8.
    change 255 with (Z.ones 8). rewrite Z.land_ones by lia.
    apply Z.mod_mod. lia. }
  assert (Hq : 0 <= address mod 1024 / 256 < 4).
  { split; [apply Z.div_pos; lia |]. apply Z.div_lt_upper_bound; lia. }
  assert (Hsplit : address mod 1024 =
                   256 * (address mod 1024 / 256) + address mod 256).
  { pose proof (Z.rem_mul_r address 256 4 ltac:(lia) ltac:(lia)) as Hrem.
    change (256 * 4) with 1024 in Hrem.
    pose proof (Z.mod_pos_bound address 256 ltac:(lia)) as Hr256.
    rewrite <- (Z.div_unique (address mod 1024) 256 (address / 256 mod 4)
                  (address mod 256)); lia. }
  repeat apply conj.
  - lia.
  - lia.
  - rewrite Hw. replace (240 + 2 * (address mod 1024 / 256))
      with (0 + (120 + address mod 1024 / 256) * 2) by lia.
    rewrite Z.mod_add by lia. reflexivity.
  - lia.
  - rewrite Hw, Hlow.
    replace (240 + 2 * (address mod 1024 / 256) - 240)
      with (address mod 1024 / 256 * 2) by lia.
    rewrite Z.div_mul by lia. lia.
  - intros H127. rewrite (Z.mod_small address 1024) in H7 by lia.
    replace (127 <? address) with false in H7
      by (symmetry; apply Z.ltb_ge; lia).
    cbn [orb] in H7. apply andb_true_iff in H7 as [H7w H7r].
    apply Z.eqb_eq in H7w, H7r. split; assumption.
Qed.

Lemma address_bytes_witness :
  256 * ((to_uint8 (U_PORT_10BIT_HEADER_WRITE 666) - 240) / 2) +
  to_uint8 (U_PORT_10BIT_ADDRESS 666) = 666 mod 1024.
Proof.
  destruct (address_bytes 666 ltac:(lia)) as [_ [_ [_ [Hback _]]]].
  exact Hback.
Defined.

(** ** Sending *)

Definition is_write (c : DrvCall) : bool :=
  match c with i2c_master_write _ _ _ _ => true | _ => false end.

(** Whether the driver accepted every primitive of a list of calls made from
    history [before]; creating and deleting a link return nothing the code
    looks at. *)
Fixpoint all_accepted (d : Driver) (before cs : list DrvCall) : bool :=
  match cs with
  | [] => true
  | c :: cs' =>
      (match c with
       | i2c_cmd_link_create | i2c_cmd_link_delete _ => true
       | _ => drv_result d before c =? ESP_OK
       end) && all_accepted d (before ++ [c]) cs'
  end.

(** [send] reports success exactly when the driver accepted every primitive
    it was given, and the Platform error otherwise. *)
Theorem send_success_iff_accepted (d : Driver) (s : State)
    (handle address : Z) (pData : option Z) (size : Z) (noStop : bool) :
  let r := run (send handle address pData size noStop) d s in
  (fst r = U_ERROR_COMMON_SUCCESS <->
   all_accepted d (calls s) (new_calls s (snd r)) = true) /\
  (fst r <> U_ERROR_COMMON_SUCCESS -> fst r = U_ERROR_COMMON_PLATFORM).
Proof.
  intros r. subst r. m_unfold.
  destruct (address >? 127), pData, noStop; cbn [is_null default];
    m_cases d;
    unfold new_calls; m_calls;
    rewrite <- ?app_assoc; rewrite drop_app_length;
    cbn [app all_accepted];
    repeat match goal with
           | H : (drv_result d _ _ =? _) = _ |- _ => rewrite ?H; clear H
           end;
    cbn [andb]; (split; [split |]); intros;
    first [ congruence
          | unfold U_ERROR_COMMON_PLATFORM, U_ERROR_COMMON_SUCCESS in *;
            congruence ].
Qed.

(** With [noStop], [uPortI2cControllerSend] never issues a stop condition,
    and with a null buffer it never issues a data write, whatever the state,
    the other arguments and the driver's answers. *)
Theorem uPortI2cControllerSend_never (d : Driver) (s : State)
    (handle address bytesToSend : Z) (pSend : option Z) (noStop : bool) :
  let cs :=
    new_calls s
      (snd (run (uPortI2cControllerSend handle address pSend bytesToSend
                   noStop) d s)) in
  (noStop = true -> Forall (fun c => is_stop c = false) cs) /\
  (pSend = None -> Forall (fun c => is_write c = false) cs).
Proof.
  intros cs. subst cs.
  unfold uPortI2cControllerSend, run, bind, get, ret. m_reduce.
  destruct (gMutex s);
    [| unfold new_calls; rewrite drop_all; split; intros; constructor].
  destruct (in_range handle && (clockHertz (data_at s handle) >? 0) &&
            (negb (is_null pSend) || (bytesToSend =? 0)));
    [| unfold new_calls; rewrite drop_all; split; intros; constructor].
  m_unfold.
  destruct (address >? 127), pSend, noStop; cbn [is_null default];
    m_cases d; m_new_calls;
    (split; intros Heq; try discriminate Heq; repeat constructor).
Qed.

Lemma uPortI2cControllerSend_never_witness :
  Forall (fun c => is_stop c = false)
    (new_calls s_open0
       (snd (run (uPortI2cControllerSend 0 66 (Some 100) 2 true)
               (drv_accepting 7 19) s_open0))).
Proof.
  apply (uPortI2cControllerSend_never (drv_accepting 7 19) s_open0
           0 66 2 (Some 100) true).
  reflexivity.
Defined.

(** Once the first start condition of a transaction has been accepted, the
    command link is released on every path of [send] and of [receive],
    whichever later primitive fails. *)
Theorem transfer_links_released (d : Driver) (s : State)
    (handle address size pReceive : Z) (pData : option Z) (noStop : bool) :
  drv_result d (calls s ++ [i2c_cmd_link_create])
    (i2c_master_start (drv_handle d (calls s))) = ESP_OK ->
  links_outstanding
    (new_calls s (snd (run (send handle address pData size noStop) d s))) = 0
  /\
  links_outstanding
    (new_calls s (snd (run (receive handle address pReceive size) d s))) = 0.
Proof.
  intros Hstart. split.
  - apply send_link_released. exact Hstart.
  - apply receive_link_released. exact Hstart.
Qed.

Lemma transfer_links_released_witness :
  links_outstanding
    (new_calls s_open0
       (snd (run (send 0 66 (Some 100) 2 false) drv_no_stop s_open0))) = 0.
Proof.
  apply (transfer_links_released drv_no_stop s_open0 0 66 2 200 (Some 100)
           false).
  reflexivity.
Defined.

(** ** Send and receive in one call *)

(** On an open handle, [uPortI2cControllerSendReceive] with only a send
    buffer is [send] with a stop, with only a receive buffer is [receive],
    and with neither is a success without any driver call; a null buffer
    with a length other than zero is refused; and when the send half fails
    the receive half is not started. *)
Theorem sendReceive_halves (d : Driver) (s : State)
    (handle address pSend bytesToSend pReceive bytesToReceive : Z) :
  gMutex s = true ->
  0 <= handle < U_PORT_I2C_MAX_NUM ->
  0 < clockHertz (data_at s handle) ->
  run (uPortI2cControllerSendReceive handle address (Some pSend) bytesToSend
         None 0) d s =
    run (send handle address (Some pSend) bytesToSend false) d s /\
  run (uPortI2cControllerSendReceive handle address None 0
         (Some pReceive) bytesToReceive) d s =
    run (receive handle address pReceive bytesToReceive) d s /\
  run (uPortI2cControllerSendReceive handle address None 0 None 0) d s =
    (U_ERROR_COMMON_SUCCESS, s) /\
  (bytesToSend <> 0 ->
   run (uPortI2cControllerSendReceive handle address None bytesToSend
          (Some pReceive) bytesToReceive) d s =
     (U_ERROR_COMMON_INVALID_PARAMETER, s)) /\
  (bytesToReceive <> 0 ->
   run (uPortI2cControllerSendReceive handle address (Some pSend) bytesToSend
          None bytesToReceive) d s =
     (U_ERROR_COMMON_INVALID_PARAMETER, s)) /\
  (fst (run (send handle address (Some pSend) bytesToSend false) d s) <>
     U_ERROR_COMMON_SUCCESS ->
   run (uPortI2cControllerSendReceive handle address (Some pSend) bytesToSend
          (Some pReceive) bytesToReceive) d s =
     run (send handle address (Some pSend) bytesToSend false) d s).
Proof.
  intros Hm Hr Hopen.
  pose proof (in_range_inside _ Hr) as Hin.
  assert (Hgt : (clockHertz (data_at s handle) >? 0) = true)
    by (apply Z.gtb_lt; lia).
  unfold uPortI2cControllerSendReceive, run, bind, get, ret. m_reduce.
  rewrite Hm, Hin, Hgt. cbn [is_null negb andb orb default Z.eqb].
  repeat apply conj.
  - m_reduce.
    destruct (send handle address (Some pSend) bytesToSend false d s)
      as [e s1].
    rewrite andb_false_r. reflexivity.
  - m_norm. reflexivity.
  - reflexivity.
  - intros Hn. apply Z.eqb_neq in Hn. rewrite Hn. reflexivity.
  - intros Hn. apply Z.eqb_neq in Hn. rewrite Hn. reflexivity.
  - m_reduce.
    destruct (send handle address (Some pSend) bytesToSend false d s)
      as [e s1].
    cbn [fst]. intros Hfail. apply Z.eqb_neq in Hfail. rewrite Hfail.
    reflexivity.
Qed.

Lemma sendReceive_halves_witness :
  run (uPortI2cControllerSendReceive 0 66 None 0 (Some 200) 3)
    (drv_accepting 7 19) s_open0 =
  run (receive 0 66 200 3) (drv_accepting 7 19) s_open0.
Proof.
  apply (sendReceive_halves (drv_accepting 7 19) s_open0 0 66 100 2 200 3);
    first [reflexivity | vm_compute; split; [discriminate | reflexivity]].
Defined.

(** ** Setting and reading the timeout *)

(** On an open instance that is not adopted, [uPortI2cSetTimeout] makes one
    driver call, [i2c_set_timeout] with the register value of
    [timeoutMsToEsp32], and returns success or the Platform error as the
    driver answers. With the default clock source, a request above 52 ms
    hands -1 to the driver: the conversion's failure is not checked. *)
Theorem uPortI2cSetTimeout_register (d : Driver) (s : State)
    (handle timeoutMs : Z) :
  gMutex s = true ->
  0 <= handle < U_PORT_I2C_MAX_NUM ->
  0 < clockHertz (data_at s handle) ->
  adopted (data_at s handle) = false ->
  0 < timeoutMs ->
  let reg := timeoutMsToEsp32 U_PORT_I2C_CLOCK_PERIOD_NS timeoutMs in
  let r := run (uPortI2cSetTimeout handle timeoutMs) d s in
  new_calls s (snd r) = [i2c_set_timeout handle reg] /\
  fst r = (if drv_result d (calls s) (i2c_set_timeout handle reg) =? ESP_OK
           then U_ERROR_COMMON_SUCCESS else U_ERROR_COMMON_PLATFORM) /\
  (52 < timeoutMs -> reg = -1) /\
  (timeoutMs <= 52 -> 0 <= reg <= 21).
Proof.
  intros Hm Hr Hopen Hown Hms reg r. subst r.
  pose proof (in_range_inside _ Hr) as Hin.
  unfold uPortI2cSetTimeout, esp_ok, call, run, bind, get, ret. m_reduce.
  rewrite Hm, Hin, Hown.
  replace (clockHertz (data_at s handle) >? 0) with true
    by (symmetry; apply Z.gtb_lt; lia).
  replace (timeoutMs >? 0) with true by (symmetry; apply Z.gtb_lt; lia).
  m_reduce. fold reg.
  assert (Hp : 0 < U_PORT_I2C_CLOCK_PERIOD_NS <= 1023)
    by (vm_compute; split; [reflexivity | discriminate]).
  pose proof (timeoutMsToEsp32_least U_PORT_I2C_CLOCK_PERIOD_NS timeoutMs Hp)
    as Hleast.
  cbv zeta in Hleast. fold reg in Hleast.
  assert (H21 : register_ms U_PORT_I2C_CLOCK_PERIOD_NS 21 = 52)
    by reflexivity.
  repeat apply conj.
  - m_new_calls. reflexivity.
  - destruct (drv_result d (calls s) (i2c_set_timeout handle reg) =? ESP_OK);
      reflexivity.
  - intros Hbig. destruct Hleast as [[Hnone _] | [Hreg [Hreach _]]];
      [exact Hnone |].
    pose proof (register_ms_mono U_PORT_I2C_CLOCK_PERIOD_NS Hp reg 21
                  ltac:(lia)). lia.
  - intros Hsmall. destruct Hleast as [[_ Hnone] | [Hreg _]]; [| exact Hreg].
    specialize (Hnone 21 ltac:(lia)). lia.
Qed.

Lemma uPortI2cSetTimeout_register_witness :
  new_calls s_open0
    (snd (run (uPortI2cSetTimeout 0 100) (drv_accepting 7 19) s_open0)) =
  [i2c_set_timeout 0 (-1)].
Proof.
  destruct (uPortI2cSetTimeout_register (drv_accepting 7 19) s_open0 0 100
              eq_refl
              ltac:(vm_compute; split; [discriminate | reflexivity])
              eq_refl eq_refl eq_refl)
    as [Hcalls _].
  exact Hcalls.
Defined.

(** With a driver that takes the timeout and reports it back, a timeout of
    1 to 52 ms that has been set reads back as at least the request: it is
    the timeout of the least register value that reaches it. *)
Theorem set_get_timeout_round_trip (d : Driver) (s : State)
    (handle timeoutMs : Z) :
  gMutex s = true ->
  0 <= handle < U_PORT_I2C_MAX_NUM ->
  0 < clockHertz (data_at s handle) ->
  adopted (data_at s handle) = false ->
  1 <= timeoutMs <= 52 ->
  let reg := timeoutMsToEsp32 U_PORT_I2C_CLOCK_PERIOD_NS timeoutMs in
  let c1 := calls s ++ [i2c_set_timeout handle reg] in
  drv_result d (calls s) (i2c_set_timeout handle reg) = ESP_OK ->
  drv_result d c1 (i2c_get_timeout handle) = ESP_OK ->
  drv_timeout d c1 handle = reg ->
  let s1 := snd (run (uPortI2cSetTimeout handle timeoutMs) d s) in
  fst (run (uPortI2cSetTimeout handle timeoutMs) d s) =
    U_ERROR_COMMON_SUCCESS /\
  fst (run (uPortI2cGetTimeout handle) d s1) =
    Some (2 ^ reg * U_PORT_I2C_CLOCK_PERIOD_NS / 1000000) /\
  timeoutMs <= 2 ^ reg * U_PORT_I2C_CLOCK_PERIOD_NS / 1000000 /\
  (forall x, 0 <= x < reg ->
     2 ^ x * U_PORT_I2C_CLOCK_PERIOD_NS / 1000000 < timeoutMs).
Proof.
  intros Hm Hr Hopen Hown Hms reg c1 Hset Hget Hback s1.
  pose proof (in_range_inside _ Hr) as Hin.
  assert (Hp : 0 < U_PORT_I2C_CLOCK_PERIOD_NS <= 1023)
    by (vm_compute; split; [reflexivity | discriminate]).
  destruct (uPortI2cSetTimeout_register d s handle timeoutMs Hm Hr Hopen Hown
              ltac:(lia)) as [_ [Hret [_ Hreg]]].
  fold reg in Hret, Hreg. specialize (Hreg ltac:(lia)).
  rewrite Hset in Hret. change (ESP_OK =? ESP_OK) with true in Hret.
  pose proof (timeoutMsToEsp32_least U_PORT_I2C_CLOCK_PERIOD_NS timeoutMs Hp)
    as Hleast.
  cbv zeta in Hleast. fold reg in Hleast.
  destruct Hleast as [[Hnone _] | [_ [Hreach Hbelow]]]; [lia |].
  assert (Hs1 : s1 = record_call (i2c_set_timeout handle reg) s).
  { subst s1.
    unfold uPortI2cSetTimeout, esp_ok, call, run, bind, get, ret. m_reduce.
    rewrite Hm, Hin, Hown.
    replace (clockHertz (data_at s handle) >? 0) with true
      by (symmetry; apply Z.gtb_lt; lia).
    replace (timeoutMs >? 0) with true by (symmetry; apply Z.gtb_lt; lia).
    m_reduce. reflexivity. }
  repeat apply conj.
  - exact Hret.
  - rewrite Hs1.
    unfold uPortI2cGetTimeout, call_get_timeout, run, bind, get, ret.
    m_reduce. m_calls.
    replace (data_at (record_call (i2c_set_timeout handle reg) s) handle)
      with (data_at s handle) by reflexivity.
    rewrite Hm, Hin.
    replace (clockHertz (data_at s handle) >? 0) with true
      by (symmetry; apply Z.gtb_lt; lia).
    m_reduce. m_calls. fold c1. rewrite Hget, Hback.
    change (ESP_OK =? ESP_OK) with true. m_reduce.
    apply timeoutEsp32ToMs_exact; [exact Hp |].
    unfold U_PORT_I2C_ESP32X3_TIMEOUT_REGISTER_MAX. lia.
  - exact Hreach.
  - exact Hbelow.
Qed.

(** A driver that accepts every call and reports the timeout register value
    it was last given, or 0 before any. *)
Definition drv_remembering : Driver :=
  mk_driver (fun _ _ => ESP_OK) (fun _ => 7)
    (fun before port =>
       fold_left
         (fun reg c =>
            match c with
            | i2c_set_timeout p v => if p =? port then v else reg
            | _ => reg
            end) before 0).

Lemma set_get_timeout_round_trip_witness :
  fst (run (uPortI2cGetTimeout 0) drv_remembering
         (snd (run (uPortI2cSetTimeout 0 40) drv_remembering s_open0))) =
  Some (2 ^ timeoutMsToEsp32 U_PORT_I2C_CLOCK_PERIOD_NS 40 *
        U_PORT_I2C_CLOCK_PERIOD_NS / 1000000).
Proof.
  destruct (set_get_timeout_round_trip drv_remembering s_open0 0 40
              eq_refl
              ltac:(vm_compute; split; [discriminate | reflexivity])
              eq_refl eq_refl
              ltac:(vm_compute; split; discriminate)
              eq_refl eq_refl eq_refl)
    as [_ [Hget _]].
  exact Hget.
Defined.

Lemma open_error_same_globals_witness :
  same_globals s_init
    (snd (run (uPortI2cOpen 0 4 5 true) drv_no_install s_init)).
Proof.
  apply (open_error_same_globals drv_no_install s_init 0 4 5 true).
  vm_compute. reflexivity.
Defined.
